(** * PROACTIVA simulation: the stream consumer, the query client and the
      metrics and insight presentation, with the simulation core they talk to

    The JavaScript sources embedded here are

    - [AISimulation.jsx]        ([handleWebSocketMessage], [handleQueryResult],
                                 the socket handlers and the JSX, as far as
                                 rendering it can raise),
    - [NaturalLanguageQuery]    ([processQuery], second component of
                                 [NaturalLanguage/VALAvatar.jsx]),
    - [MetricsDisplay]          ([metricCards], [getTrend]),
    - [InsightPanel]            ([getInsightIcon], [getSeverityColor], the
                                 rows),
    - [SimulationVisualizer]    ([drawAgent], [handleCanvasClick]).

    The Python simulation core (scheduler, agents, insight engine,
    broadcaster, query adapter) is not part of the sources at hand; where a
    property is about it, the core is modelled from the specification and
    every such definition says so. *)

From Stdlib Require Import Floats ZArith Lia Ascii.
From stdpp Require Import gmap strings list pretty.

(** ** JavaScript values

    Everything the components handle arrives through [JSON.parse] or is a
    literal of the source, so a value is a JSON value or [undefined].
    Numbers are IEEE 754 binary64 ([float]); an object is a finite map from
    property names to values.  A string is a sequence of code units below
    256, the Latin-1 range of JavaScript's UTF-16 code units, where a code
    unit is a code point: [String.length] is [length], a spread yields one
    string per unit, and [trim] removes every white space and line
    terminator of ECMAScript that lies in the range. *)
Module JS.

#[warnings="-register-all"] Inductive jsval : Type :=
  | JUndefined
  | JNull
  | JBool (b : bool)
  | JNum (x : float)
  | JStr (s : string)
  | JArr (xs : list jsval)
  | JObj (fields : gmap string jsval).

(** What ECMAScript leaves to a longer algorithm than the components depend
    on: reading a number out of a string ([StringToNumber]), printing a
    number that is not an integer below 2^53 ([NumberToString_other]), and
    the text of the [TypeError] an engine raises when a property of [null]
    or [undefined] is read. *)
Class Engine := {
  StringToNumber : string → float;
  NumberToString_other : float → string;
  TypeError_message : jsval → string → string
}.

Definition is_nan (x : float) : bool := negb (PrimFloat.eqb x x).

(** [!!v] of JavaScript: [undefined], [null], [false], [0], [-0], [NaN] and
    the empty string are falsy, everything else is truthy. *)
Definition truthy (v : jsval) : bool :=
  match v with
  | JUndefined | JNull => false
  | JBool b => b
  | JNum x => negb (PrimFloat.eqb x 0%float || is_nan x)
  | JStr s => negb (bool_decide (s = ""))
  | JArr _ | JObj _ => true
  end.

(** [a || b] and [a && b]. *)
Definition js_or (a b : jsval) : jsval := if truthy a then a else b.
Definition js_and (a b : jsval) : jsval := if truthy a then b else a.

(** [v === "lit"] for a string literal. *)
Definition is_str (v : jsval) (lit : string) : bool :=
  match v with
  | JStr s => bool_decide (s = lit)
  | _ => false
  end.

Definition Z_to_float (z : Z) : float :=
  if (z <? 0)%Z then PrimFloat.opp (PrimFloat.of_uint63 (Uint63.of_Z (- z)))
  else PrimFloat.of_uint63 (Uint63.of_Z z).

Definition nat_to_float (n : nat) : float := Z_to_float (Z.of_nat n).

(** [v.k] for the property names the components read ([type], [state],
    [length], ...; none of them is inherited from a prototype).  [None] is
    the [TypeError] of reading a property of [null] or [undefined]; a
    property that is not there reads as [undefined]. *)
Definition get_prop (v : jsval) (k : string) : option jsval :=
  match v with
  | JUndefined | JNull => None
  | JObj fields => Some (default JUndefined (fields !! k))
  | JArr xs =>
      Some (if bool_decide (k = "length") then JNum (nat_to_float (length xs))
            else JUndefined)
  | JStr s =>
      Some (if bool_decide (k = "length") then JNum (nat_to_float (String.length s))
            else JUndefined)
  | JBool _ | JNum _ => Some JUndefined
  end.

(** [Math.round]: the nearest integer, ties towards +∞, computed exactly on
    the mantissa and exponent; a result in [-0.5, 0) is [-0]. *)
Definition Math_round (x : float) : float :=
  match Prim2SF x with
  | S754_finite s m e =>
      if (0 <=? e)%Z then x
      else
        let d := (2 ^ (- e))%Z in
        let n := if s then Z.neg m else Z.pos m in
        let r := ((2 * n + d) / (2 * d))%Z in
        if (r =? 0)%Z then (if s then (-0)%float else 0%float)
        else Z_to_float r
  | _ => x
  end.

Definition Math_abs (x : float) : float := PrimFloat.abs x.

(** The integer a finite float [m * 2^e] stands for, when it is one. *)
Definition integral_value (m : positive) (e : Z) : option N :=
  if (0 <=? e)%Z then Some (N.pos m * 2 ^ Z.to_N e)%N
  else
    let d := (2 ^ Z.to_N (- e))%N in
    if (N.pos m mod d =? 0)%N then Some (N.pos m / d)%N else None.

Section WithEngine.
Context {engine : Engine}.

(** [Number::toString]: exact for [NaN], the infinities, the zeros and the
    integers below 2^53, which print as their decimal digits (beyond, an
    engine prints the shortest digits that read back as the same number). *)
Definition NumberToString (x : float) : string :=
  match Prim2SF x with
  | S754_nan => "NaN"
  | S754_zero _ => "0"
  | S754_infinity s => if s then "-Infinity" else "Infinity"
  | S754_finite s m e =>
      match integral_value m e with
      | Some n =>
          if (n <? 2 ^ 53)%N then (if s then "-" else "") +:+ pretty n
          else NumberToString_other x
      | None => NumberToString_other x
      end
  end.

Fixpoint join_comma (l : list string) : string :=
  match l with
  | [] => ""
  | [s] => s
  | s :: rest => s +:+ "," +:+ join_comma rest
  end.

(** [String(v)], as a template literal applies it; an array joins its
    elements with commas, [null] and [undefined] elements printing as
    nothing. *)
Fixpoint ToString (v : jsval) : string :=
  match v with
  | JUndefined => "undefined"
  | JNull => "null"
  | JBool b => if b then "true" else "false"
  | JNum x => NumberToString x
  | JStr s => s
  | JArr xs =>
      join_comma
        (map (fun e => match e with
                       | JUndefined | JNull => ""
                       | _ => ToString e
                       end) xs)
  | JObj _ => "[object Object]"
  end.

(** [ToPrimitive]: arrays and plain objects have no numeric value of their
    own and fall back to their string. *)
Definition ToPrimitive (v : jsval) : jsval :=
  match v with
  | JArr _ | JObj _ => JStr (ToString v)
  | _ => v
  end.

Definition ToNumber (v : jsval) : float :=
  match ToPrimitive v with
  | JUndefined => nan
  | JNull => 0%float
  | JBool b => if b then 1%float else 0%float
  | JNum x => x
  | JStr s => StringToNumber s
  | JArr _ | JObj _ => nan
  end.

(** [a < b]: two strings compare as strings, anything else as numbers
    (a comparison with [NaN] is false). *)
Definition js_lt (a b : jsval) : bool :=
  match ToPrimitive a, ToPrimitive b with
  | JStr s, JStr t => String.ltb s t
  | pa, pb => PrimFloat.ltb (ToNumber pa) (ToNumber pb)
  end.

(** [v.length > 0]. *)
Definition length_positive (v : jsval) : bool :=
  match v with
  | JArr xs => match xs with [] => false | _ :: _ => true end
  | JStr s => negb (bool_decide (s = ""))
  | JObj fields => PrimFloat.ltb 0%float (ToNumber (default JUndefined (fields !! "length")))
  | _ => false
  end.

End WithEngine.

Fixpoint chars (s : string) : list jsval :=
  match s with
  | EmptyString => []
  | String c rest => JStr (String c EmptyString) :: chars rest
  end.

(** [[...v]]: the elements of an array, the characters of a string; any
    other value is not iterable ([None], a [TypeError]). *)
Definition spread (v : jsval) : option (list jsval) :=
  match v with
  | JArr xs => Some xs
  | JStr s => Some (chars s)
  | _ => None
  end.

(** The own enumerable properties [{...v}] copies: the fields of an object,
    the indices of an array or of a string, nothing for other values. *)
Definition own_properties (v : jsval) : gmap string jsval :=
  match v with
  | JObj fields => fields
  | JArr xs => list_to_map (imap (fun i x => (pretty i, x)) xs)
  | JStr s => list_to_map (imap (fun i x => (pretty i, x)) (chars s))
  | _ => ∅
  end.

(** [{...a, ...b}]: the properties of [b] win. *)
Definition object_spread (a b : jsval) : jsval :=
  JObj (own_properties b ∪ own_properties a).

(** The code units [String.prototype.trim] removes: the white space and the
    line terminators of ECMAScript.  Below 256 these are TAB, LF, VT, FF and
    CR (9 to 13), the space (32) and the no-break space U+00A0 (160); the
    others (U+1680, U+2000 to U+200A, U+2028, U+2029, U+202F, U+205F, U+3000
    and U+FEFF) are beyond the range of the strings taken here. *)
Definition is_space (c : ascii) : bool :=
  let n := nat_of_ascii c in
  ((9 <=? n) && (n <=? 13)) || (n =? 32) || (n =? 160).

(** [String.prototype.trim]: the white space at both ends goes. *)
Fixpoint trim_start (s : string) : string :=
  match s with
  | String c rest => if is_space c then trim_start rest else s
  | EmptyString => EmptyString
  end.

Definition trim (s : string) : string :=
  String.rev (trim_start (String.rev (trim_start s))).

End JS.

(** ** MetricsDisplay: the six metric cards and their trend arrows *)
Module MetricsDisplay.
Import JS.

(** One entry of [metricCards].  [baseline] and [current] are [undefined] on
    the cards that do not declare them; the icon and the [optimal], [target]
    and [trend] properties, which the rendering never reads, are left out. *)
Record card := {
  title : string;
  value : jsval;
  color : string;
  baseline : jsval;
  current : jsval
}.

Record trend := {
  trend_value : float;
  direction : string;
  positive : bool
}.

Section WithEngine.
Context {engine : Engine}.

(** A template literal [`${Math.round(v)}`]. *)
Definition rounded (v : float) : string := NumberToString (Math_round v).

(** [metricCards], as a function of the [metrics] prop.  Reading a property
    of a [metrics] that is [null] or [undefined] raises ([None]). *)
Definition metricCards (metrics : jsval) : option (list card) :=
  patients_waiting ← get_prop metrics "patients_waiting";
  average_wait_time ← get_prop metrics "average_wait_time";
  average_satisfaction ← get_prop metrics "average_satisfaction";
  provider_utilization ← get_prop metrics "provider_utilization";
  cost_per_visit ← get_prop metrics "cost_per_visit";
  mental_health_access ← get_prop metrics "mental_health_access";
  Some
    [ {| title := "Patients Waiting";
         value := js_or patients_waiting (JNum 0);
         color := "blue";
         baseline := JUndefined;
         current := JUndefined |};
      {| title := "Avg Wait Time";
         value := JStr (rounded (ToNumber (js_or average_wait_time (JNum 0))) +:+ " min");
         color := "yellow";
         baseline := JNum 28;
         current := js_or average_wait_time (JNum 0) |};
      {| title := "Satisfaction";
         value := JStr (rounded (ToNumber (js_or average_satisfaction (JNum 50))) +:+ "%");
         color := "green";
         baseline := JNum 72;
         current := js_or average_satisfaction (JNum 50) |};
      {| title := "Provider Utilization";
         value := JStr (rounded (ToNumber (js_or provider_utilization (JNum 0)) * 100) +:+ "%");
         color := "purple";
         baseline := JUndefined;
         current := JUndefined |};
      {| title := "Cost per Visit";
         value := JStr ("$" +:+ rounded (ToNumber (js_or cost_per_visit (JNum 150))));
         color := "indigo";
         baseline := JNum 185;
         current := js_or cost_per_visit (JNum 150) |};
      {| title := "Mental Health Access";
         value := JStr (rounded (ToNumber (js_or mental_health_access (JNum 0))) +:+ "%");
         color := "pink";
         baseline := JUndefined;
         current := JUndefined |} ].

(** [getTrend(current, baseline)]; [None] is the [null] it returns. *)
Definition getTrend (current baseline : jsval) : option trend :=
  if negb (truthy baseline) || negb (truthy current) then None
  else
    let change :=
      ((ToNumber current - ToNumber baseline) / ToNumber baseline * 100)%float in
    Some {| trend_value := Math_abs (Math_round change);
            direction := if js_lt current baseline then "down" else "up";
            positive := js_lt current baseline |}.

(** The trend the rendering computes for a card:
    [metric.baseline ? getTrend(metric.current, metric.baseline) : null]. *)
Definition card_trend (c : card) : option trend :=
  if truthy (baseline c) then getTrend (current c) (baseline c) else None.

End WithEngine.

End MetricsDisplay.

(** ** InsightPanel: icon and colour of an insight *)
Module InsightPanel.
Import JS.

Inductive icon := AlertCircle | TrendingUp | Lightbulb | AlertTriangle.

(** [getInsightIcon(type)]: a [switch] on the type tag, [AlertCircle] being
    its [default]. *)
Definition getInsightIcon (type : jsval) : icon :=
  if is_str type "wait_time_crisis" || is_str type "capacity_crisis" then AlertTriangle
  else if is_str type "innovation_success" || is_str type "social_network_pattern" then TrendingUp
  else if is_str type "resource_optimization" || is_str type "temporal_pattern" then Lightbulb
  else AlertCircle.

Definition getSeverityColor (severity : jsval) : string :=
  if is_str severity "high" then "border-red-200 bg-red-50"
  else if is_str severity "medium" then "border-yellow-200 bg-yellow-50"
  else if is_str severity "low" then "border-green-200 bg-green-50"
  else "border-gray-200 bg-gray-50".

End InsightPanel.

(** ** How a handler ends

    [Normal s]: it returned, leaving the component in state [s].
    [Throw msg s]: an exception with message [msg] left the handler; the
    state updates requested before it are kept.
    [RenderCrash]: a queued state update raised when React applied it, or
    the rendering of the new state raised; either takes the component
    down. *)
Inductive completion (S : Type) : Type :=
  | Normal (s : S)
  | Throw (msg : string) (s : S)
  | RenderCrash.
Arguments Normal {S} s.
Arguments Throw {S} msg s.
Arguments RenderCrash {S}.

(** The state a handler leaves behind, while the component is mounted. *)
Definition state_after {S : Type} (c : completion S) : option S :=
  match c with
  | Normal s | Throw _ s => Some s
  | RenderCrash => None
  end.

(** ** What React takes as a child

    [{v}] in JSX, for a value that came out of [JSON.parse]: a string or a
    number becomes text, a boolean, [null] and [undefined] render nothing,
    an array renders its elements; an object raises ("Objects are not valid
    as a React child"). *)
Fixpoint valid_child (v : JS.jsval) : bool :=
  match v with
  | JS.JObj _ => false
  | JS.JArr xs => forallb valid_child xs
  | _ => true
  end.

(** ** AISimulation: the consumer of a run's stream *)
Module AISimulation.
Import JS.

(** The [useState] cells of the component.  [insights] starts as [[]] and is
    only ever replaced by the result of a [slice], so it is an array.  The
    handlers are embedded with the updates they queue, and the JSX with the
    reads that can raise when it renders the state afterwards ([renders]). *)
Record state := {
  simulationId : jsval;
  isRunning : bool;
  isConnected : bool;
  currentState : jsval;
  insights : list jsval;
  agents : jsval;
  selectedAgent : jsval;
  queryResponse : jsval
}.

Definition initial_state : state :=
  {| simulationId := JNull;
     isRunning := false;
     isConnected := false;
     currentState := JObj ∅;
     insights := [];
     agents := JArr [];
     selectedAgent := JNull;
     queryResponse := JNull |}.

Definition setSimulationId (v : jsval) (s : state) : state :=
  {| simulationId := v; isRunning := isRunning s;
     isConnected := isConnected s; currentState := currentState s;
     insights := insights s; agents := agents s;
     selectedAgent := selectedAgent s; queryResponse := queryResponse s |}.

Definition setIsRunning (b : bool) (s : state) : state :=
  {| simulationId := simulationId s; isRunning := b;
     isConnected := isConnected s; currentState := currentState s;
     insights := insights s; agents := agents s;
     selectedAgent := selectedAgent s; queryResponse := queryResponse s |}.

Definition setIsConnected (b : bool) (s : state) : state :=
  {| simulationId := simulationId s; isRunning := isRunning s;
     isConnected := b; currentState := currentState s;
     insights := insights s; agents := agents s;
     selectedAgent := selectedAgent s; queryResponse := queryResponse s |}.

Definition setCurrentState (v : jsval) (s : state) : state :=
  {| simulationId := simulationId s; isRunning := isRunning s;
     isConnected := isConnected s; currentState := v;
     insights := insights s; agents := agents s;
     selectedAgent := selectedAgent s; queryResponse := queryResponse s |}.

Definition setInsights (l : list jsval) (s : state) : state :=
  {| simulationId := simulationId s; isRunning := isRunning s;
     isConnected := isConnected s; currentState := currentState s;
     insights := l; agents := agents s;
     selectedAgent := selectedAgent s; queryResponse := queryResponse s |}.

Definition setAgents (v : jsval) (s : state) : state :=
  {| simulationId := simulationId s; isRunning := isRunning s;
     isConnected := isConnected s; currentState := currentState s;
     insights := insights s; agents := v;
     selectedAgent := selectedAgent s; queryResponse := queryResponse s |}.

Definition setQueryResponse (v : jsval) (s : state) : state :=
  {| simulationId := simulationId s; isRunning := isRunning s;
     isConnected := isConnected s; currentState := currentState s;
     insights := insights s; agents := agents s;
     selectedAgent := selectedAgent s; queryResponse := v |}.

(** The updater both handlers queue:
    [prev => [...added, ...prev].slice(0, 20)]. *)
Definition keep_last_20 (added prev : list jsval) : list jsval :=
  take 20 (added ++ prev).

Section WithEngine.
Context {engine : Engine}.

(** [if (v && v.length > 0) setInsights(prev => [...v, ...prev].slice(0, 20))]
    The guard is evaluated by the handler; the spread runs when React
    applies the update, where a value that is not iterable raises. *)
Definition add_insights (v : jsval) (s : state) : completion state :=
  if truthy v && length_positive v then
    match spread v with
    | Some added => Normal (setInsights (keep_last_20 added (insights s)) s)
    | None => RenderCrash
    end
  else Normal s.

(** [handleWebSocketMessage(data)]. *)
Definition handleWebSocketMessage (data : jsval) (s : state) : completion state :=
  match get_prop data "type" with
  | None => Throw (TypeError_message data "type") s
  | Some type =>
      if is_str type "initial_state" then
        match get_prop data "data" with
        | None => Throw (TypeError_message data "data") s
        | Some d =>
            match get_prop d "current_state" with
            | None => Throw (TypeError_message d "current_state") s
            | Some current_state => Normal (setCurrentState current_state s)
            end
        end
      else if is_str type "simulation_update" then
        match get_prop data "state", get_prop data "agents",
              get_prop data "new_insights" with
        | Some st, Some ags, Some new_insights =>
            add_insights new_insights (setAgents ags (setCurrentState st s))
        | _, _, _ => Throw (TypeError_message data "state") s
        end
      else if is_str type "simulation_completed" then
        Normal (setIsRunning false s)
      else if is_str type "simulation_error" then
        Normal (setIsRunning false s)
      else Normal s
  end.

(** [handleQueryResult(result)], the [onQueryResult] callback handed to the
    query component. *)
Definition handleQueryResult (result : jsval) (s : state) : completion state :=
  let s1 := setQueryResponse result s in
  match get_prop result "insights", get_prop result "metrics" with
  | Some ins, Some metrics =>
      match add_insights ins s1 with
      | Normal s2 =>
          if truthy metrics
          then Normal (setCurrentState (object_spread (currentState s2) metrics) s2)
          else Normal s2
      | other => other
      end
  | _, _ => Throw (TypeError_message result "insights") s1
  end.

(** *** Rendering the state

    After a handler has run, React renders the component with the state it
    left.  An exception raised while rendering, or by an effect run after
    it, unmounts the component: neither it nor any of its children is an
    error boundary.  What follows are the places where the JSX of the page and of
    its children [MetricsDisplay], [SimulationVisualizer] and [InsightPanel]
    can raise.  The two other children depend on nothing a socket event
    changes: [NaturalLanguageQuery] renders cells of its own, and
    [AgentDetails], whose source is not at hand, the agent a click
    selected. *)

(** [{agents.length} agents active • Step {currentState.simulation_time || 0}]
    (line 178): both reads raise on [null] and [undefined], and both values
    are children. *)
Definition header_renders (s : state) : bool :=
  match get_prop (agents s) "length",
        get_prop (currentState s) "simulation_time" with
  | Some n, Some t => valid_child n && valid_child (js_or t (JNum 0))
  | _, _ => false
  end.

(** [<MetricsDisplay metrics={currentState} />]: the six cards are built
    and the [value] of each is a child. *)
Definition metrics_render (s : state) : bool :=
  match MetricsDisplay.metricCards (currentState s) with
  | Some cards => forallb (fun c => valid_child (MetricsDisplay.value c)) cards
  | None => false
  end.

(** [<SimulationVisualizer agents={agents} ... />]: its effect runs
    [agents.forEach(agent => drawAgent(ctx, agent, width, height,
    agent.id === selectedAgent?.id))], which only an array has, and reads a
    property of every agent. *)
Definition visualizer_renders (s : state) : bool :=
  match agents s with
  | JArr l => forallb (fun agent => bool_decide (is_Some (get_prop agent "id"))) l
  | _ => false
  end.

(** [{queryResponse && (... Q: {queryResponse.query} ...
    {queryResponse.response} ...)}]. *)
Definition answer_renders (s : state) : bool :=
  if truthy (queryResponse s) then
    match get_prop (queryResponse s) "query",
          get_prop (queryResponse s) "response" with
    | Some q, Some r => valid_child q && valid_child r
    | _, _ => false
    end
  else true.

(** One row of [<InsightPanel insights={insights} />]: [insight.type] and
    the other reads raise on an insight that is [null]; [{insight.title}],
    [{insight.description}], [{insight.recommendation && ...}] and
    [{insight.impact?.patients_affected && ...}] put the four values among
    the children, either as they are (when falsy) or inside their line. *)
Definition insight_renders (insight : jsval) : bool :=
  match get_prop insight "title", get_prop insight "description",
        get_prop insight "recommendation", get_prop insight "impact" with
  | Some title, Some description, Some recommendation, Some impact =>
      valid_child title && valid_child description
      && valid_child recommendation
      && valid_child (default JUndefined (get_prop impact "patients_affected"))
  | _, _, _, _ => false
  end.

(** The page renders in state [s]. *)
Definition renders (s : state) : bool :=
  header_renders s && metrics_render s && visualizer_renders s
  && answer_renders s && forallb insight_renders (insights s).

(** The rendering that follows a handler: a state that cannot be rendered
    takes the page down. *)
Definition rerender (c : completion state) : completion state :=
  match state_after c with
  | Some s' => if renders s' then c else RenderCrash
  | None => RenderCrash
  end.

(** What the socket of [startSimulation] can report: [onopen], a frame
    whose [JSON.parse] succeeded, a frame that is not JSON (the message is
    the [SyntaxError]'s), [onerror] and [onclose]. *)
Inductive ws_event :=
  | Open
  | Message (data : jsval)
  | Unparsable (msg : string)
  | Error
  | Close.

(** One socket event on the mounted page: its handler, then the rendering
    of the state the handler left. *)
Definition on_ws_event (e : ws_event) (s : state) : completion state :=
  rerender
    match e with
    | Open => Normal (setIsConnected true s)
    | Message data => handleWebSocketMessage data s
    | Unparsable msg => Throw msg s
    | Error => Normal (setIsConnected false s)
    | Close => Normal (setIsRunning false (setIsConnected false s))
    end.

(** A run of socket events.  An exception escaping one event's handler does
    not stop the next event from being handled; a crashed rendering does
    ([None]: the component is gone). *)
Fixpoint on_ws_events (events : list ws_event) (s : state) : option state :=
  match events with
  | [] => Some s
  | e :: rest =>
      match state_after (on_ws_event e s) with
      | Some s' => on_ws_events rest s'
      | None => None
      end
  end.

End WithEngine.

End AISimulation.

(** ** NaturalLanguageQuery: the client of the free-text query endpoint *)
Module NaturalLanguageQuery.
Import JS.

(** One entry of [conversationHistory]. *)
Record entry := {
  id : Z;
  timestamp : string;
  entry_query : string;
  entry_response : jsval;
  entry_metrics : jsval;
  entry_insights : jsval
}.

(** The [useState] cells of the component. *)
Record state := {
  query : string;
  isListening : bool;
  isSpeaking : bool;
  isProcessing : bool;
  response : jsval;
  error : string;
  isVoiceEnabled : bool;
  conversationHistory : list entry
}.

Definition initial_state : state :=
  {| query := ""; isListening := false; isSpeaking := false;
     isProcessing := false; response := JStr ""; error := "";
     isVoiceEnabled := false; conversationHistory := [] |}.

Definition setQuery (q : string) (s : state) : state :=
  {| query := q; isListening := isListening s; isSpeaking := isSpeaking s;
     isProcessing := isProcessing s; response := response s; error := error s;
     isVoiceEnabled := isVoiceEnabled s;
     conversationHistory := conversationHistory s |}.

Definition setIsProcessing (b : bool) (s : state) : state :=
  {| query := query s; isListening := isListening s; isSpeaking := isSpeaking s;
     isProcessing := b; response := response s; error := error s;
     isVoiceEnabled := isVoiceEnabled s;
     conversationHistory := conversationHistory s |}.

Definition setResponse (v : jsval) (s : state) : state :=
  {| query := query s; isListening := isListening s; isSpeaking := isSpeaking s;
     isProcessing := isProcessing s; response := v; error := error s;
     isVoiceEnabled := isVoiceEnabled s;
     conversationHistory := conversationHistory s |}.

Definition setError (msg : string) (s : state) : state :=
  {| query := query s; isListening := isListening s; isSpeaking := isSpeaking s;
     isProcessing := isProcessing s; response := response s; error := msg;
     isVoiceEnabled := isVoiceEnabled s;
     conversationHistory := conversationHistory s |}.

Definition setConversationHistory (h : list entry) (s : state) : state :=
  {| query := query s; isListening := isListening s; isSpeaking := isSpeaking s;
     isProcessing := isProcessing s; response := response s; error := error s;
     isVoiceEnabled := isVoiceEnabled s;
     conversationHistory := h |}.

(** The request [processQuery] hands to [fetch]; [body] is the object given
    to [JSON.stringify]. *)
Record request := {
  url : string;
  method : string;
  content_type : string;
  body : jsval
}.

(** How the awaited calls end: [fetch] rejects (no connection), or resolves
    with a response whose [ok] flag and [statusText] are read and whose
    [json()] either rejects (a body that is not JSON) or yields the data. *)
Inductive fetch_outcome :=
  | Rejected (msg : string)
  | Responded (ok : bool) (statusText : string) (json : string + jsval).

(** What the call takes from outside the component: the outcome of the
    request, [Date.now()], [new Date().toLocaleTimeString()], and whether
    the browser offers speech synthesis ([synthRef.current]). *)
Record environment := {
  fetched : fetch_outcome;
  now : Z;
  localeTime : string;
  synth : bool
}.

(** What a call of [processQuery] leaves: the component's state, the state
    of the owner of the callback ([None] when an update the callback queued
    crashed the rendering), the request sent and the text spoken, if any. *)
Record result (P : Type) := {
  component : state;
  owner : option P;
  sent : option request;
  spoken : option jsval
}.
Arguments component {P} r.
Arguments owner {P} r.
Arguments sent {P} r.
Arguments spoken {P} r.

(** The red box under the input: [{error && (...)}]. *)
Definition error_displayed (s : state) : bool := negb (bool_decide (error s = "")).

Section WithEngine.
Context {engine : Engine}.

Definition query_request (simulationId : jsval) (q : string) : request :=
  {| url := "http://localhost:8000/api/v2/simulations/" +:+ ToString simulationId +:+ "/query";
     method := "POST";
     content_type := "application/json";
     body := JObj (<["query" := JStr q]>
                   (<["include_context" := JBool true]>
                    (<["voice_response" := JBool true]> ∅))) |}.

(** The [catch] and [finally] blocks. *)
Definition failed (msg : string) (s : state) : state :=
  setIsProcessing false (setError msg s).

(** [processQuery], for a component with props [simulationId] and
    [onQueryResult], whose owner is in state [p]. *)
Definition processQuery {P : Type} (simulationId : jsval)
    (onQueryResult : option (jsval → P → completion P))
    (env : environment) (s : state) (p : P) : result P :=
  if bool_decide (trim (query s) = "") || negb (truthy simulationId) then
    {| component := s; owner := Some p; sent := None; spoken := None |}
  else
    let s1 := setError "" (setIsProcessing true s) in
    let req := Some (query_request simulationId (query s)) in
    let fail msg s' p' :=
      {| component := failed msg s'; owner := p'; sent := req; spoken := None |} in
    match fetched env with
    | Rejected msg => fail msg s1 (Some p)
    | Responded false statusText _ => fail ("Query failed: " +:+ statusText) s1 (Some p)
    | Responded true _ (inl msg) => fail msg s1 (Some p)
    | Responded true _ (inr data) =>
        match get_prop data "response", get_prop data "metrics",
              get_prop data "insights" with
        | Some data_response, Some data_metrics, Some data_insights =>
            let newEntry :=
              {| id := now env;
                 timestamp := localeTime env;
                 entry_query := query s;
                 entry_response := data_response;
                 entry_metrics := js_or data_metrics (JObj ∅);
                 entry_insights := js_or data_insights (JArr []) |} in
            let s2 :=
              setResponse data_response
                (setConversationHistory (newEntry :: conversationHistory s1) s1) in
            let called :=
              match onQueryResult with
              | Some callback => callback data p
              | None => Normal p
              end in
            match called with
            | Throw msg p' => fail msg s2 (Some p')
            | _ =>
                {| component := setIsProcessing false (setQuery "" s2);
                   owner := state_after called;
                   sent := req;
                   spoken :=
                     if isVoiceEnabled s && truthy data_response && synth env
                     then Some data_response else None |}
            end
        | _, _, _ => fail (TypeError_message data "response") s1 (Some p)
        end
    end.

End WithEngine.

End NaturalLanguageQuery.

(** ** The page: AISimulation mounting the query component *)
Module Page.
Import JS.

(** [{simulationId && (<NaturalLanguageQuery ... />)}]. *)
Definition query_mounted (a : AISimulation.state) : bool :=
  truthy (AISimulation.simulationId a).

(** [processQuery] of the mounted query component: its props are
    [simulationId={simulationId}] and [onQueryResult={handleQueryResult}]. *)
Definition processQuery {engine : Engine} (env : NaturalLanguageQuery.environment)
    (n : NaturalLanguageQuery.state) (a : AISimulation.state)
    : NaturalLanguageQuery.result AISimulation.state :=
  NaturalLanguageQuery.processQuery (AISimulation.simulationId a)
    (Some AISimulation.handleQueryResult) env n a.

End Page.

(** ** The simulation core

    The scheduler, the agents, the insight engine, the broadcaster and the
    query adapter are Python modules ([backend/simulation/...],
    [backend/api/main.py]) that the sources at hand only document. *)
Module Core.
Import JS.

(** Modelled from the spec: the Patient state machine of §4.2; the Python
    agent class is missing.  The states are those the agent framework
    document lists. *)
Inductive PatientState :=
  | ARRIVAL
  | CHECK_IN
  | WAITING
  | TRIAGE
  | TREATMENT
  | DISCHARGED
  | LEFT_WITHOUT_TREATMENT.

#[export] Instance PatientState_eq_dec : EqDecision PatientState.
Proof. solve_decision. Defined.

(** Modelled from the spec: the non-terminal states of the missing Patient
    class, as the conservation law of §8 names them. *)
Definition non_terminal_states : list PatientState :=
  [ARRIVAL; CHECK_IN; WAITING; TRIAGE; TREATMENT].

(** Modelled from the spec: the terminal states of the missing Patient
    class (§8). *)
Definition terminal_states : list PatientState :=
  [DISCHARGED; LEFT_WITHOUT_TREATMENT].

(** Modelled from the spec: the edges of the Patient machine (§4.2), the
    transition table of the missing agent class:
    ARRIVAL → CHECK_IN → WAITING → TRIAGE → TREATMENT → DISCHARGED, and
    WAITING → LEFT_WITHOUT_TREATMENT. *)
Definition edge (from to : PatientState) : bool :=
  match from, to with
  | ARRIVAL, CHECK_IN
  | CHECK_IN, WAITING
  | WAITING, TRIAGE
  | TRIAGE, TREATMENT
  | TREATMENT, DISCHARGED
  | WAITING, LEFT_WITHOUT_TREATMENT => true
  | _, _ => false
  end.

(** Modelled from the spec: an Agent of the missing Population Manager,
    with the two fields of §3 that the counts depend on. *)
Record Agent := {
  agent_id : nat;
  agent_state : PatientState
}.

(** Modelled from the spec: a Run as the missing Population Manager holds
    it (§3, §4.1): the active set, the terminal-state history, the number of
    Agents created so far and the tick counter. *)
Record Run := {
  active : list Agent;
  history : list Agent;
  created : nat;
  tick : nat
}.

(** Modelled from the spec: the Run the missing scheduler's [create]
    returns (§4.1), before any arrival. *)
Definition create : Run :=
  {| active := []; history := []; created := 0; tick := 0 |}.

(** Modelled from the spec: what a tick of the missing scheduler takes from
    outside the state: the number of arrivals drawn and, for each Agent,
    what its [step()] attempts ([None]: it stays where it is).  Both stand
    for the random draws and the resource availability of §4.1 and §4.2. *)
Record draws := {
  arrivals : nat → nat;
  attempt : nat → Agent → option PatientState
}.

(** Modelled from the spec: one Agent's step inside the missing scheduler
    (§4.2, §7).  A move along an edge is taken; an attempt that follows no
    edge is the [AgentFaultError] of §7, which forces the Agent to a safe
    terminal state. *)
Definition step (d : draws) (t : nat) (a : Agent) : Agent :=
  match attempt d t a with
  | None => a
  | Some target =>
      if edge (agent_state a) target
      then {| agent_id := agent_id a; agent_state := target |}
      else {| agent_id := agent_id a; agent_state := LEFT_WITHOUT_TREATMENT |}
  end.

(** Modelled from the spec: the test of step (d) of the missing
    [Scheduler.tick()], an Agent that reached a terminal state. *)
Definition is_terminal (a : Agent) : bool :=
  bool_decide (agent_state a ∈ terminal_states).

(** Modelled from the spec: the Patients an arrival draw of [n] creates in
    the missing Population Manager (§3), in ARRIVAL and with fresh
    identifiers. *)
Definition arrive (first n : nat) : list Agent :=
  map (fun i => {| agent_id := i; agent_state := ARRIVAL |}) (seq first n).

(** Modelled from the spec: [Scheduler.tick()] of §4.1, whose Python source
    is missing: (a) the arrivals join the active set, (b) every active Agent
    steps, (d) the Agents that reached a terminal state move to the history,
    (e) the result is committed. *)
Definition tick_once (d : draws) (r : Run) : Run :=
  let n := arrivals d (tick r) in
  let stepped := map (step d (tick r)) (active r ++ arrive (created r) n) in
  {| active := filter (fun a => is_terminal a = false) stepped;
     history := history r ++ filter (fun a => is_terminal a = true) stepped;
     created := created r + n;
     tick := S (tick r) |}.

(** Modelled from the spec: [n] ticks of the missing scheduler. *)
Fixpoint run_ticks (d : draws) (n : nat) (r : Run) : Run :=
  match n with
  | 0 => r
  | S k => tick_once d (run_ticks d k r)
  end.

(** Modelled from the spec: the count of §8 over the missing Run, the
    number of its Agents, active or retired, whose state is one of
    [states]. *)
Definition count_in (states : list PatientState) (r : Run) : nat :=
  length (filter (fun a => agent_state a ∈ states) (active r ++ history r)).

(** Modelled from the spec: the detector catalog of the missing Insight
    Engine (§4.6). *)
Inductive detector :=
  | WaitTimeCrisis
  | BottleneckDetection
  | InnovationSuccess
  | ResourceOptimization
  | SocialNetworkPattern.

#[export] Instance detector_eq_dec : EqDecision detector.
Proof. solve_decision. Defined.

(** Modelled from the spec: the fixed catalog the missing Insight Engine
    evaluates (§4.6). *)
Definition catalog : list detector :=
  [WaitTimeCrisis; BottleneckDetection; InnovationSuccess;
   ResourceOptimization; SocialNetworkPattern].

(** Modelled from the spec: the type tag of each detector of the missing
    Insight Engine, the §4.6 name in the snake case of §8's
    [innovation_success] and of the API document's [wait_time_crisis]. *)
Definition type_tag (d : detector) : string :=
  match d with
  | WaitTimeCrisis => "wait_time_crisis"
  | BottleneckDetection => "bottleneck_detection"
  | InnovationSuccess => "innovation_success"
  | ResourceOptimization => "resource_optimization"
  | SocialNetworkPattern => "social_network_pattern"
  end.

(** Modelled from the spec: what a detector of the missing Insight Engine
    reports when it fires, the fields of an Insight (§3) other than its
    type tag. *)
Record finding := {
  severity : string;
  confidence : float;
  description : string
}.

(** Modelled from the spec: the Insight the missing engine emits for a
    finding, as the API document lays an insight out. *)
Definition insight_of (d : detector) (f : finding) : jsval :=
  JObj (<["type" := JStr (type_tag d)]>
        (<["severity" := JStr (severity f)]>
         (<["confidence" := JNum (confidence f)]>
          (<["description" := JStr (description f)]> ∅)))).

(** Modelled from the spec: one pass of the missing Insight Engine (§4.6):
    every detector of the catalog yields zero or one Insight. *)
Definition evaluate (detect : detector → option finding) : list jsval :=
  omap (fun d => insight_of d <$> detect d) catalog.

(** Modelled from the spec: the messages of the missing Streaming
    Broadcaster (§4.7, §6), laid out as the API document shows them. *)
Record update := {
  update_state : jsval;
  update_agents : list jsval;
  update_insights : list jsval
}.

(** Modelled from the spec: how a Run of the missing Scheduler ends (§3,
    §4.1): STOPPED at the operator's request, COMPLETED when the configured
    duration is reached, ERROR on an unrecoverable fault. *)
Inductive termination :=
  | Stopped
  | Completed (total_steps : nat) (final_metrics : jsval)
  | Failed (error : string).

(** Modelled from the spec: the initial full-state message of the missing
    Broadcaster. *)
Definition initial_message (run_id : string) (snapshot : jsval) : jsval :=
  JObj (<["type" := JStr "initial_state"]>
        (<["data" := JObj (<["simulation_id" := JStr run_id]>
                           (<["current_state" := snapshot]> ∅))]> ∅)).

(** Modelled from the spec: the per-tick update message of the missing
    Broadcaster. *)
Definition update_message (run_id : string) (u : update) : jsval :=
  JObj (<["type" := JStr "simulation_update"]>
        (<["simulation_id" := JStr run_id]>
         (<["state" := update_state u]>
          (<["agents" := JArr (update_agents u)]>
           (<["new_insights" := JArr (update_insights u)]> ∅))))).

(** Modelled from the spec: what the missing Scheduler hands to the
    Broadcaster of a Run (§2, §4.7): the update of a committed tick, or the
    terminal status the Run has reached. *)
Inductive run_event :=
  | Ticked (u : update)
  | Terminated (t : termination).

(** Modelled from the spec: one subscriber's channel in the missing
    Broadcaster (§4.7): the messages delivered on it, oldest first, and
    whether it has been closed. *)
Record channel := {
  delivered : list jsval;
  closed : bool
}.

(** Modelled from the spec: subscribing to the missing Broadcaster (§4.7),
    which sends the initial message with the full current Snapshot.  The
    recent Insight history that §4.7 sends along has no field in the API
    document's layout of that message. *)
Definition subscribe (run_id : string) (snapshot : jsval) : channel :=
  {| delivered := [initial_message run_id snapshot]; closed := false |}.

Section Broadcaster.

(** Modelled from the spec: the terminal message the missing Broadcaster
    sends for a stopped Run (§4.7).  The API document lays out the messages
    of a completed and of a failed Run only, so this one is left open. *)
Variable stopped_message : string → jsval.

(** Modelled from the spec: the terminal message of the missing
    Broadcaster. *)
Definition terminal_message (run_id : string) (t : termination) : jsval :=
  match t with
  | Stopped => stopped_message run_id
  | Completed total_steps final_metrics =>
      JObj (<["type" := JStr "simulation_completed"]>
            (<["simulation_id" := JStr run_id]>
             (<["total_steps" := JNum (nat_to_float total_steps)]>
              (<["final_metrics" := final_metrics]> ∅))))
  | Failed error =>
      JObj (<["type" := JStr "simulation_error"]>
            (<["simulation_id" := JStr run_id]>
             (<["error" := JStr error]> ∅)))
  end.

(** Modelled from the spec: what the missing Broadcaster does with an event
    of the Run (§4.7), for a subscriber that keeps pace: each tick it sends
    an update; on termination it sends the terminal message and closes the
    channel; on a closed channel nothing is sent. *)
Definition publish (run_id : string) (c : channel) (e : run_event) : channel :=
  if closed c then c
  else
    match e with
    | Ticked u =>
        {| delivered := delivered c ++ [update_message run_id u];
           closed := false |}
    | Terminated t =>
        {| delivered := delivered c ++ [terminal_message run_id t];
           closed := true |}
    end.

(** Modelled from the spec: the channel of a subscriber of the missing
    Broadcaster after the events of the Run that followed its subscription. *)
Definition broadcast (run_id : string) (snapshot : jsval)
    (events : list run_event) : channel :=
  foldl (publish run_id) (subscribe run_id snapshot) events.

(** Modelled from the spec: what the missing Broadcaster delivers on one
    Run's stream from subscription to termination (§6): the initial full
    state, one update per tick, one terminal message. *)
Definition stream (run_id : string) (snapshot : jsval) (updates : list update)
    (t : termination) : list jsval :=
  initial_message run_id snapshot
    :: map (update_message run_id) updates ++ [terminal_message run_id t].

End Broadcaster.

(** Modelled from the spec: the delegation step of the missing Query Adapter
    (§4.8).  The external capability answers, is unavailable, or times out;
    in the last two cases the local heuristics answer. *)
Inductive delegation (R : Type) :=
  | Answered (r : R)
  | Unavailable
  | TimedOut.
Arguments Answered {R} r.
Arguments Unavailable {R}.
Arguments TimedOut {R}.

(** Modelled from the spec: the answer of the missing Query Adapter, the
    delegate's when there is one and the local heuristics' otherwise. *)
Definition answer {R : Type} (local : string → R) (d : delegation R)
    (text : string) : R :=
  match d with
  | Answered r => r
  | Unavailable | TimedOut => local text
  end.

(** Modelled from the spec: the fixed intent set of the missing Query
    Adapter (§4.8). *)
Inductive intent :=
  | WaitTime
  | PatientCount
  | InnovationEffectiveness
  | StatusOverview
  | InsightRequest
  | WhatIf.

(** Modelled from the spec: the tag of each intent of the missing Query
    Adapter, the §4.8 name in the snake case of the API document's
    [what_if]. *)
Definition intent_tag (i : intent) : string :=
  match i with
  | WaitTime => "wait_time"
  | PatientCount => "patient_count"
  | InnovationEffectiveness => "innovation_effectiveness"
  | StatusOverview => "status_overview"
  | InsightRequest => "insight_request"
  | WhatIf => "what_if"
  end.

(** Modelled from the spec: what the missing Query Adapter makes of a
    question (§4.8): its intent, the confidence, the answer and the
    scenario parameters, if any.  The answer is the one text of the API
    document and of the client, where §4.8 has a concise and a detailed
    one. *)
Record resolution := {
  resolved_intent : intent;
  resolved_confidence : float;
  resolved_response : string;
  resolved_scenario : option jsval
}.

(** Modelled from the spec: how the missing Query Adapter resolves a
    question (§4.8): the local heuristics work on the current Snapshot and
    the Insight history of the Run, and answer whenever the delegate does
    not. *)
Definition resolve (local : jsval → list jsval → string → resolution)
    (d : delegation resolution) (snapshot : jsval) (insight_history : list jsval)
    (text : string) : resolution :=
  answer (local snapshot insight_history) d text.

(** Modelled from the spec: the response of the missing free-text query
    endpoint (§4.8, §6), laid out as the API document gives it
    ([docs/api/backend-api.md], Natural Language Query): the question, the
    intent, the answer, the confidence and, when there are any, the scenario
    parameters. *)
Definition query_response (text : string) (r : resolution) : jsval :=
  let fields : gmap string jsval :=
    <["query" := JStr text]>
      (<["intent" := JStr (intent_tag (resolved_intent r))]>
       (<["response" := JStr (resolved_response r)]>
        (<["confidence" := JNum (resolved_confidence r)]> ∅))) in
  JObj match resolved_scenario r with
       | Some scenario => <["scenario" := scenario]> fields
       | None => fields
       end.

(** Modelled from the spec: the missing free-text query endpoint (§6): it
    takes the text, resolves it for the Run and returns the record. *)
Definition query_endpoint (local : jsval → list jsval → string → resolution)
    (d : delegation resolution) (snapshot : jsval) (insight_history : list jsval)
    (text : string) : jsval :=
  query_response text (resolve local d snapshot insight_history text).

End Core.

(** The kind of a stream message, as the [switch] of
    [handleWebSocketMessage] tells them apart. *)
Inductive message_kind := InitialState | Update | Terminal | Unknown.

Definition kind_of (data : JS.jsval) : message_kind :=
  match JS.get_prop data "type" with
  | None => Unknown
  | Some type =>
      if JS.is_str type "initial_state" then InitialState
      else if JS.is_str type "simulation_update" then Update
      else if JS.is_str type "simulation_completed" then Terminal
      else if JS.is_str type "simulation_error" then Terminal
      else Unknown
  end.

(** The updates of the ticks a Run made before it ended, and how it ended
    ([None]: it has not). *)
Fixpoint ticks_before_end (events : list Core.run_event) : list Core.update :=
  match events with
  | Core.Ticked u :: rest => u :: ticks_before_end rest
  | _ => []
  end.

Fixpoint ending (events : list Core.run_event) : option Core.termination :=
  match events with
  | [] => None
  | Core.Ticked _ :: rest => ending rest
  | Core.Terminated t :: _ => Some t
  end.

(** A message no property of which can be read: [null] (and [undefined],
    which [JSON.parse] never yields). *)
Definition unreadable (data : JS.jsval) : bool :=
  match data with
  | JS.JUndefined | JS.JNull => true
  | _ => false
  end.

(** The four message types the [switch] has a [case] for. *)
Definition known_type (type : JS.jsval) : bool :=
  JS.is_str type "initial_state" || JS.is_str type "simulation_update"
  || JS.is_str type "simulation_completed" || JS.is_str type "simulation_error".

(** The two operations that add to the retained insight list: a stream
    message and a query result. *)
Inductive operation :=
  | StreamMessage (data : JS.jsval)
  | QueryResult (result : JS.jsval).

Definition perform {engine : JS.Engine} (op : operation) (s : AISimulation.state)
    : completion AISimulation.state :=
  match op with
  | StreamMessage data => AISimulation.handleWebSocketMessage data s
  | QueryResult result => AISimulation.handleQueryResult result s
  end.

(** The insights an operation carries: [data.new_insights] of a per-tick
    update, [result.insights] of a query result. *)
Definition carried (op : operation) : option JS.jsval :=
  match op with
  | StreamMessage data =>
      if kind_of data is Update then JS.get_prop data "new_insights" else None
  | QueryResult result => JS.get_prop result "insights"
  end.

(** An engine to run the examples with.  The examples reach none of its
    three functions; any other choice gives the same results. *)
Definition plain_engine : JS.Engine :=
  {| JS.StringToNumber := fun _ => nan;
     JS.NumberToString_other := fun _ => "?";
     JS.TypeError_message := fun _ k => "Cannot read properties (reading '" +:+ k +:+ "')" |}.

(** An argument of [getTrend] that is absent ([undefined], [null]) or the
    number zero. *)
Definition absent_or_zero (v : JS.jsval) : bool :=
  match v with
  | JS.JUndefined | JS.JNull => true
  | JS.JNum x => PrimFloat.eqb x 0%float
  | _ => false
  end.

(** An argument of [getTrend] that is absent or a number proper. *)
Definition number_or_absent (v : JS.jsval) : bool :=
  match v with
  | JS.JUndefined | JS.JNull => true
  | JS.JNum x => negb (JS.is_nan x)
  | _ => false
  end.

(** The connection flags of the consumer, which the socket handlers set. *)
Definition with_connection (connected running : bool) (a : AISimulation.state)
    : AISimulation.state :=
  AISimulation.setIsConnected connected (AISimulation.setIsRunning running a).

(** How the query call itself can fail, with the message of the exception
    that reaches the [catch] block: [fetch] rejects, the status is not OK
    ([throw new Error(`Query failed: ${response.statusText}`)]), the body
    is not JSON, or the body is the JSON [null], of which [data.response]
    cannot be read. *)
Definition call_failure {engine : JS.Engine}
    (o : NaturalLanguageQuery.fetch_outcome) : option string :=
  match o with
  | NaturalLanguageQuery.Rejected msg => Some msg
  | NaturalLanguageQuery.Responded false statusText _ =>
      Some ("Query failed: " +:+ statusText)
  | NaturalLanguageQuery.Responded true _ (inl msg) => Some msg
  | NaturalLanguageQuery.Responded true _ (inr data) =>
      if unreadable data then Some (JS.TypeError_message data "response")
      else None
  end.

(** The response of the query endpoint as the API document gives it
    ([docs/api/backend-api.md], Natural Language Query). *)
#[warnings="-inexact-float"] Definition documented_query_response : JS.jsval :=
  JS.JObj
    (<["query" := JS.JStr "What if we had 20% less nurses during the day shift?"]>
     (<["intent" := JS.JStr "what_if"]>
      (<["response" := JS.JStr "Based on your question... wait times would increase by 40% to approximately 39 minutes..."]>
       (<["confidence" := JS.JNum 0.85]>
        (<["scenario" := JS.JObj (<["staff_reduction" := JS.JNum 0.2]> ∅)]> ∅))))).



(** A page whose run is known, a query typed into it, and the surroundings
    of a call, to run the examples with. *)
Definition page : AISimulation.state :=
  AISimulation.setSimulationId (JS.JStr "sim_abc123") AISimulation.initial_state.

Definition asking (q : string) : NaturalLanguageQuery.state :=
  NaturalLanguageQuery.setQuery q NaturalLanguageQuery.initial_state.

Definition answered (o : NaturalLanguageQuery.fetch_outcome)
    : NaturalLanguageQuery.environment :=
  {| NaturalLanguageQuery.fetched := o;
     NaturalLanguageQuery.now := 1704110400000;
     NaturalLanguageQuery.localeTime := "12:00:00 PM";
     NaturalLanguageQuery.synth := false |}.

(** The draws of a small Run: two Patients arrive at the first tick; the
    first walks the edges up to WAITING, the second attempts, at the second
    tick, a move that follows no edge. *)
Definition small_run : Core.draws :=
  {| Core.arrivals := fun t => match t with 0 => 2 | _ => 0 end;
     Core.attempt := fun t a =>
       match Core.agent_id a, t with
       | 0, 0 => Some Core.CHECK_IN
       | 0, 1 => Some Core.WAITING
       | 0, _ => None
       | _, 1 => Some Core.DISCHARGED
       | _, _ => None
       end |}.

(** Local heuristics that take every question for a what-if about the
    nurses and answer it from the number of patients waiting. *)
#[warnings="-inexact-float"] Definition nurse_heuristics (snapshot : JS.jsval)
    (insight_history : list JS.jsval) (text : string) : Core.resolution :=
  {| Core.resolved_intent := Core.WhatIf;
     Core.resolved_confidence := 0.85;
     Core.resolved_response :=
       if JS.truthy (default JS.JUndefined (JS.get_prop snapshot "patients_waiting"))
       then "Wait times would increase by 40%."
       else "Nobody is waiting.";
     Core.resolved_scenario :=
       Some (JS.JObj (<["staff_reduction" := JS.JNum 0.2]> ∅)) |}.


(** A page whose run is running and whose socket is open; a Run followed
    from a subscription over two ticks to its completion, with a tick
    reported after the end; the message taken for a stopped Run; and
    insights told apart by a label and a number. *)
Definition running_page : AISimulation.state := with_connection true true page.

Definition stop_notice (run_id : string) : JS.jsval :=
  JS.JObj (<["type" := JS.JStr "simulation_stopped"]>
           (<["simulation_id" := JS.JStr run_id]> ∅)).

Definition tick_update (n : nat) : Core.update :=
  {| Core.update_state :=
       JS.JObj (<["simulation_time" := JS.JNum (JS.nat_to_float n)]>
                (<["patients_waiting" := JS.JNum 25]>
                 (<["average_wait_time" := JS.JNum 18.5]> ∅)));
     Core.update_agents :=
       [JS.JObj (<["id" := JS.JStr "patient_1"]>
                 (<["type" := JS.JStr "patient"]>
                  (<["state" := JS.JStr "waiting"]> ∅)))];
     Core.update_insights :=
       [JS.JObj (<["type" := JS.JStr "wait_time_crisis"]>
                 (<["title" := JS.JStr ("Wait time at tick " +:+ pretty n)]>
                  (<["description" := JS.JStr "Average wait above threshold"]> ∅)))] |}.

Definition streamed_run : list Core.run_event :=
  [Core.Ticked (tick_update 1); Core.Ticked (tick_update 2);
   Core.Terminated (Core.Completed 2 (JS.JObj ∅));
   Core.Ticked (tick_update 3)].

Definition labelled (label : string) (n : nat) : list JS.jsval :=
  map (fun i => JS.JObj (<["id" := JS.JStr (label +:+ pretty i)]> ∅)) (seq 0 n).

(** ** AISimulation: creating, starting and stopping a run

    [ws.current] refers to a [WebSocket] object that outlives the call
    creating it, so the sockets are kept in a store and the ref is an index
    into it. *)
Module Lifecycle.
Import JS.

(** A [WebSocket] the page created: its URL and whether [close()] was
    called on it. *)
Record socket := {
  socket_url : string;
  close_called : bool
}.

(** The component with its ref: the [useState] cells, every socket created
    so far (oldest first) and [ws.current]. *)
Record page := {
  ui : AISimulation.state;
  sockets : list socket;
  ws_current : option nat
}.

Definition initial_page : page :=
  {| ui := AISimulation.initial_state; sockets := []; ws_current := None |}.

Definition with_ui (a : AISimulation.state) (p : page) : page :=
  {| ui := a; sockets := sockets p; ws_current := ws_current p |}.

(** A request handed to [fetch]: [call_json] is the object given to
    [JSON.stringify] when the request has a body. *)
Record call := {
  call_url : string;
  call_method : string;
  call_json : option jsval
}.

Definition close (k : socket) : socket :=
  {| socket_url := socket_url k; close_called := true |}.

(** [if (ws.current) { ws.current.close(); }]. *)
Definition close_current (p : page) : list socket :=
  match ws_current p with
  | Some i => alter close i (sockets p)
  | None => sockets p
  end.

Section WithEngine.
Context {engine : Engine}.

(** [createSimulation], for the [innovations] prop and the outcome of the
    request.  Reading the prop raises inside the [try] when it is [null] or
    [undefined], before anything is sent. *)
Definition createSimulation (innovations : jsval)
    (o : NaturalLanguageQuery.fetch_outcome) (p : page) : page * option call :=
  match get_prop innovations "vrStations", get_prop innovations "telehealthRooms",
        get_prop innovations "aiTriageEnabled",
        get_prop innovations "mobileHealthUnits",
        get_prop innovations "roboticAssistants" with
  | Some vrStations, Some telehealthRooms, Some aiTriageEnabled,
    Some mobileHealthUnits, Some roboticAssistants =>
      let c :=
        {| call_url := "http://localhost:8000/api/v2/simulations";
           call_method := "POST";
           call_json :=
             Some (JObj (<["name" := JStr "VA Gulf Coast Simulation"]>
                   (<["num_patients" := JNum 1000]>
                   (<["num_providers" := JNum 50]>
                   (<["vr_stations" := js_or vrStations (JNum 0)]>
                   (<["telehealth_rooms" := js_or telehealthRooms (JNum 0)]>
                   (<["ai_triage_enabled" := js_or aiTriageEnabled (JBool false)]>
                   (<["mobile_units" := js_or mobileHealthUnits (JNum 0)]>
                   (<["robotic_assistants" := js_or roboticAssistants (JNum 0)]>
                    ∅))))))))) |} in
      match o with
      | NaturalLanguageQuery.Responded true _ (inr data) =>
          match get_prop data "simulation_id" with
          | Some simulation_id =>
              (with_ui (AISimulation.setSimulationId simulation_id (ui p)) p, Some c)
          | None => (p, Some c)
          end
      | _ => (p, Some c)
      end
  | _, _, _, _, _ => (p, None)
  end.

(** [startSimulation], for the outcome of the start request and whether
    [new WebSocket(url)] returned ([constructed]) or raised. *)
Definition startSimulation (o : NaturalLanguageQuery.fetch_outcome)
    (constructed : bool) (p : page) : page * option call :=
  let simulationId := AISimulation.simulationId (ui p) in
  if negb (truthy simulationId) then (p, None)
  else
    let c :=
      {| call_url := "http://localhost:8000/api/v2/simulations/"
                     +:+ ToString simulationId +:+ "/start";
         call_method := "POST";
         call_json := None |} in
    match o with
    | NaturalLanguageQuery.Responded true _ _ =>
        if constructed then
          ({| ui := AISimulation.setIsRunning true (ui p);
              sockets := sockets p
                ++ [ {| socket_url := "ws://localhost:8000/ws/" +:+ ToString simulationId;
                        close_called := false |} ];
              ws_current := Some (length (sockets p)) |}, Some c)
        else
          (with_ui (AISimulation.setIsRunning false
                      (AISimulation.setIsRunning true (ui p))) p, Some c)
    | _ => (with_ui (AISimulation.setIsRunning false (ui p)) p, Some c)
    end.

(** [stopSimulation], for the outcome of the stop request, which is only
    awaited: a rejection is logged, a response is not looked at. *)
Definition stopSimulation (o : NaturalLanguageQuery.fetch_outcome) (p : page)
    : page * option call :=
  let simulationId := AISimulation.simulationId (ui p) in
  ({| ui := AISimulation.setIsRunning false (ui p);
      sockets := close_current p;
      ws_current := ws_current p |},
   if truthy simulationId
   then Some {| call_url := "http://localhost:8000/api/v2/simulations/"
                            +:+ ToString simulationId +:+ "/stop";
                call_method := "POST";
                call_json := None |}
   else None).

End WithEngine.

(** The clean-up of the effect that creates the simulation: it closes
    [ws.current]. *)
Definition cleanup (p : page) : page :=
  {| ui := ui p; sockets := close_current p; ws_current := ws_current p |}.

(** The button of the control panel:
    [onClick={isRunning ? stopSimulation : startSimulation}] and
    [disabled={!simulationId}]. *)
Definition button_disabled (p : page) : bool :=
  negb (truthy (AISimulation.simulationId (ui p))).

End Lifecycle.

(** ** NaturalLanguageQuery: the voice input and the controls of the panel *)
Module QueryPanel.
Import JS NaturalLanguageQuery.

Definition setIsListening (b : bool) (s : state) : state :=
  {| query := query s; isListening := b; isSpeaking := isSpeaking s;
     isProcessing := isProcessing s; response := response s; error := error s;
     isVoiceEnabled := isVoiceEnabled s;
     conversationHistory := conversationHistory s |}.

(** [startListening]; [recognition] tells whether the browser gave a
    speech recognition object ([recognitionRef.current]). *)
Definition startListening (recognition : bool) (s : state) : state :=
  if recognition && negb (isListening s)
  then setIsListening true (setError "" s)
  else s.

Definition stopListening (recognition : bool) (s : state) : state :=
  if recognition && isListening s then setIsListening false s else s.

(** What the recognition object reports: [onresult] with the transcript,
    [onerror] with the error code, [onend]. *)
Inductive recognition_event :=
  | OnResult (transcript : string)
  | OnError (code : string)
  | OnEnd.

Definition on_recognition (e : recognition_event) (s : state) : state :=
  match e with
  | OnResult transcript => setIsListening false (setQuery transcript s)
  | OnError code =>
      setIsListening false (setError ("Speech recognition error: " +:+ code) s)
  | OnEnd => setIsListening false s
  end.

(** The Send button: [disabled={!query.trim() || isProcessing || isListening}]. *)
Definition send_disabled (s : state) : bool :=
  bool_decide (trim (query s) = "") || isProcessing s || isListening s.

(** The conversation panel: [conversationHistory.slice(0, 5)]. *)
Definition displayed_history (s : state) : list entry :=
  take 5 (conversationHistory s).

(** [handleKeyPress] on the page: Enter without Shift submits. *)
Definition handleKeyPress {engine : Engine} (key : string) (shiftKey : bool)
    (env : environment) (n : state) (a : AISimulation.state)
    : result AISimulation.state :=
  if bool_decide (key = "Enter") && negb shiftKey
  then Page.processQuery env n a
  else {| component := n; owner := Some a; sent := None; spoken := None |}.

End QueryPanel.

(** ** SimulationVisualizer: drawing an agent and selecting one by a click *)
Module SimulationVisualizer.
Import JS.

Definition setSelectedAgent (v : jsval) (s : AISimulation.state) : AISimulation.state :=
  {| AISimulation.simulationId := AISimulation.simulationId s;
     AISimulation.isRunning := AISimulation.isRunning s;
     AISimulation.isConnected := AISimulation.isConnected s;
     AISimulation.currentState := AISimulation.currentState s;
     AISimulation.insights := AISimulation.insights s;
     AISimulation.agents := AISimulation.agents s;
     AISimulation.selectedAgent := v;
     AISimulation.queryResponse := AISimulation.queryResponse s |}.

(** What [drawAgent] puts on the canvas, the random position left out: a
    circle for a patient, a square for a provider, nothing for another
    type. *)
Inductive shape :=
  | Circle (color : string) (radius : float)
  | Square (color : string) (side : float)
  | NotDrawn.

(** The names an object literal inherits from [Object.prototype]; looked up
    in [locationMap] they give a function or an object, which is truthy and
    has no coordinates. *)
Definition inherited_names : list string :=
  ["constructor"; "hasOwnProperty"; "isPrototypeOf"; "propertyIsEnumerable";
   "toLocaleString"; "toString"; "valueOf"; "__proto__";
   "__defineGetter__"; "__defineSetter__"; "__lookupGetter__"; "__lookupSetter__"].

(** [locationMap[key] || { x: 50, y: 50 }] of [handleCanvasClick], whose map
    holds the entrance and the waiting room only; the canvas is 400 high.
    [None]: a position without coordinates. *)
Definition click_position (key : string) : option (float * float) :=
  if bool_decide (key = "entrance") then Some (80, 200)%float
  else if bool_decide (key = "waiting_room") then Some (225, 200)%float
  else if bool_decide (key ∈ inherited_names) then None
  else Some (50, 50)%float.

Section WithEngine.
Context {engine : Engine}.

(** [x ** 2] is left to the engine: ECMAScript asks for an approximation
    of the power only. *)
Variable exponentiate : float → float → float.

(** [Math.sqrt((x - pos.x) ** 2 + (y - pos.y) ** 2) < 20]; without
    coordinates the distance is [NaN] and the test fails. *)
Definition within_radius (x y : float) (pos : option (float * float)) : bool :=
  match pos with
  | Some (px, py) =>
      PrimFloat.ltb
        (PrimFloat.sqrt (exponentiate (x - px) 2 + exponentiate (y - py) 2))%float
        20%float
  | None => false
  end.

(** The callback of [agents.find]; [None] when reading the agent raises. *)
Definition clicked (x y : float) (agent : jsval) : option bool :=
  location ← get_prop agent "location";
  Some (within_radius x y (click_position (ToString location))).

(** [agents.find(...)]: the first agent the callback accepts ([Some None]
    when there is none, [None] when the callback raised first). *)
Fixpoint find_clicked (x y : float) (agents : list jsval) : option (option jsval) :=
  match agents with
  | [] => Some None
  | agent :: rest =>
      match clicked x y agent with
      | None => None
      | Some true => Some (Some agent)
      | Some false => find_clicked x y rest
      end
  end.

(** [handleCanvasClick] for a click at [(x, y)] of the canvas, with
    [onAgentSelect={setSelectedAgent}]; [None] when it raises (an agent
    list that is no array, an agent that is [null]). *)
Definition handleCanvasClick (x y : float) (s : AISimulation.state)
    : option AISimulation.state :=
  match AISimulation.agents s with
  | JArr agents =>
      match find_clicked x y agents with
      | None => None
      | Some None => Some s
      | Some (Some clickedAgent) =>
          Some (if truthy clickedAgent then setSelectedAgent clickedAgent s else s)
      end
  | _ => None
  end.

(** The shape [drawAgent] gives an agent; [None] when reading it raises. *)
Definition drawn_shape (agent : jsval) : option shape :=
  type ← get_prop agent "type";
  state ← get_prop agent "state";
  urgency ← get_prop agent "urgency";
  Some
    (if is_str type "patient" then
       Circle
         (if is_str state "waiting" then "#f59e0b"
          else if is_str state "treatment" then "#10b981"
          else if is_str state "discharged" then "#3b82f6"
          else "#6b7280")
         (if PrimFloat.leb (ToNumber urgency) 2 then 6%float else 4%float)
     else if is_str type "provider" then
       Square (if is_str state "busy" then "#dc2626" else "#059669") 8
     else NotDrawn).

End WithEngine.

End SimulationVisualizer.

(** ** InsightPanel: the lines of one insight *)
Module InsightRow.
Import JS.

(** What [{cond && <element/>}] puts on the page: the element when [cond]
    is truthy; otherwise React renders [cond] itself, which shows for a
    number ([0], [NaN]) and for nothing else that is falsy. *)
Inductive conditional :=
  | Shown
  | Stray (text : string)
  | Hidden.

Section WithEngine.
Context {engine : Engine}.

Definition jsx_and (cond : jsval) : conditional :=
  if truthy cond then Shown
  else match cond with
       | JNum x => Stray (NumberToString x)
       | _ => Hidden
       end.

(** [Confidence: {Math.round(insight.confidence * 100)}%]; [None] when the
    insight is [null] or [undefined]. *)
Definition confidence_line (insight : jsval) : option string :=
  confidence ← get_prop insight "confidence";
  Some ("Confidence: "
        +:+ NumberToString (Math_round (ToNumber confidence * 100)%float) +:+ "%").

(** [insight.impact?.patients_affected]. *)
Definition patients_affected (insight : jsval) : option jsval :=
  impact ← get_prop insight "impact";
  match impact with
  | JUndefined | JNull => Some JUndefined
  | _ => get_prop impact "patients_affected"
  end.

(** [{insight.impact?.patients_affected && (<span>Affects: ...</span>)}]. *)
Definition affects_line (insight : jsval) : option conditional :=
  jsx_and <$> patients_affected insight.

End WithEngine.

End InsightRow.

(** Inputs to run the further examples with: a panel whose voice input is
    enabled, surroundings with speech synthesis, a page that holds a
    snapshot and an insight, a page with an open socket, and a power
    function for the click test (exact for the exponent 2). *)
Definition voiced (q : string) : NaturalLanguageQuery.state :=
  {| NaturalLanguageQuery.query := q;
     NaturalLanguageQuery.isListening := false;
     NaturalLanguageQuery.isSpeaking := false;
     NaturalLanguageQuery.isProcessing := false;
     NaturalLanguageQuery.response := JS.JStr "";
     NaturalLanguageQuery.error := "";
     NaturalLanguageQuery.isVoiceEnabled := true;
     NaturalLanguageQuery.conversationHistory := [] |}.

Definition aloud (o : NaturalLanguageQuery.fetch_outcome)
    : NaturalLanguageQuery.environment :=
  {| NaturalLanguageQuery.fetched := o;
     NaturalLanguageQuery.now := 1704110400000;
     NaturalLanguageQuery.localeTime := "12:00:00 PM";
     NaturalLanguageQuery.synth := true |}.

Definition busy_page : AISimulation.state :=
  AISimulation.setInsights [JS.JStr "old"]
    (AISimulation.setCurrentState
       (JS.JObj (<["patients_waiting" := JS.JNum 25]>
                 (<["average_wait_time" := JS.JNum 18.5]> ∅)))
       page).

Definition connected_page : Lifecycle.page :=
  {| Lifecycle.ui := page;
     Lifecycle.sockets :=
       [ {| Lifecycle.socket_url := "ws://localhost:8000/ws/sim_abc123";
            Lifecycle.close_called := false |} ];
     Lifecycle.ws_current := Some 0 |}.

Definition square_power (x _ : float) : float := (x * x)%float.

(** A panel with a question typed in after [k] earlier ones (the latest
    first, as the history keeps them). *)
Definition earlier_entry (i : nat) : NaturalLanguageQuery.entry :=
  {| NaturalLanguageQuery.id := 1704110400000 - Z.of_nat i;
     NaturalLanguageQuery.timestamp := "11:59:00 AM";
     NaturalLanguageQuery.entry_query := "Question " +:+ pretty i;
     NaturalLanguageQuery.entry_response := JS.JStr ("Answer " +:+ pretty i);
     NaturalLanguageQuery.entry_metrics := JS.JObj ∅;
     NaturalLanguageQuery.entry_insights := JS.JArr [] |}.

Definition asking_after (k : nat) (q : string) : NaturalLanguageQuery.state :=
  NaturalLanguageQuery.setConversationHistory (map earlier_entry (seq 1 k)) (asking q).

Definition two_waiting : list JS.jsval :=
  [JS.JObj (<["id" := JS.JStr "patient_1"]> (<["location" := JS.JStr "waiting_room"]> ∅));
   JS.JObj (<["id" := JS.JStr "patient_2"]> (<["location" := JS.JStr "waiting_room"]> ∅))].

Definition robot : JS.jsval :=
  JS.JObj (<["type" := JS.JStr "robot"]> (<["location" := JS.JStr "lab"]> ∅)).

(** * Properties *)

(** ** Conservation of Agents *)
Section Conservation.
Import Core.

Lemma state_classified (s : PatientState) :
  s ∈ non_terminal_states ∨ s ∈ terminal_states.
Proof.
  destruct s; [left | left | left | left | left | right | right];
    by apply (bool_decide_unpack _).
Qed.

Lemma state_not_both (s : PatientState) :
  s ∈ non_terminal_states → s ∈ terminal_states → False.
Proof.
  intros Hn Ht.
  apply (bool_decide_pack _) in Hn. apply (bool_decide_pack _) in Ht.
  destruct s; vm_compute in Hn, Ht; congruence.
Qed.

Lemma count_split (l : list Agent) :
  length (filter (fun a => agent_state a ∈ non_terminal_states) l)
  + length (filter (fun a => agent_state a ∈ terminal_states) l)
  = length l.
Proof.
  induction l as [|a l IH]; [reflexivity|].
  rewrite !filter_cons.
  destruct (state_classified (agent_state a)) as [Hn | Ht].
  - destruct (decide (agent_state a ∈ non_terminal_states)); [|contradiction].
    destruct (decide (agent_state a ∈ terminal_states)) as [Ht|_].
    + destruct (state_not_both _ Hn Ht).
    + simpl. lia.
  - destruct (decide (agent_state a ∈ terminal_states)); [|contradiction].
    destruct (decide (agent_state a ∈ non_terminal_states)) as [Hn|_].
    + destruct (state_not_both _ Hn Ht).
    + simpl. lia.
Qed.

Lemma retire_split (l : list Agent) :
  length (filter (fun a => is_terminal a = false) l)
  + length (filter (fun a => is_terminal a = true) l)
  = length l.
Proof.
  induction l as [|a l IH]; [reflexivity|].
  rewrite !filter_cons.
  destruct (is_terminal a) eqn:E.
  - destruct (decide (true = false)) as [?|_]; [discriminate|].
    destruct (decide (true = true)) as [_|?]; [|contradiction].
    simpl. lia.
  - destruct (decide (false = false)) as [_|?]; [|contradiction].
    destruct (decide (false = true)) as [?|_]; [discriminate|].
    simpl. lia.
Qed.

(** Every Agent created is either active or in the history. *)
Lemma population_created (d : draws) (n : nat) :
  length (active (run_ticks d n create)) + length (history (run_ticks d n create))
  = created (run_ticks d n create).
Proof.
  induction n as [|n IH]; [reflexivity|].
  simpl. set (r := run_ticks d n create) in *.
  unfold tick_once. simpl.
  rewrite length_app.
  pose proof (retire_split
    (map (step d (tick r)) (active r ++ arrive (created r) (arrivals d (tick r))))) as H.
  rewrite length_map, length_app in H.
  unfold arrive in H at 3. rewrite length_map, length_seq in H.
  lia.
Qed.

(** The active set holds no Agent in a terminal state, and the history
    holds nothing else. *)
Lemma active_non_terminal (d : draws) (n : nat) (a : Agent) :
  a ∈ active (run_ticks d n create) → agent_state a ∈ non_terminal_states.
Proof.
  destruct n as [|n]; simpl; [by intros ?%not_elem_of_nil|].
  unfold tick_once; simpl. intros [Hterm _]%list_elem_of_filter.
  unfold is_terminal in Hterm. apply bool_decide_eq_false in Hterm.
  destruct (state_classified (agent_state a)); [assumption | contradiction].
Qed.

Lemma history_terminal (d : draws) (n : nat) (a : Agent) :
  a ∈ history (run_ticks d n create) → agent_state a ∈ terminal_states.
Proof.
  induction n as [|n IH]; simpl; [by intros ?%not_elem_of_nil|].
  unfold tick_once; simpl. intros [Hold | Hnew]%elem_of_app; [auto|].
  apply list_elem_of_filter in Hnew as [Hterm _].
  unfold is_terminal in Hterm. by apply bool_decide_eq_true in Hterm.
Qed.

(** C1. Conservation: at every tick of a Run, the number of Agents in a
    non-terminal state (ARRIVAL, CHECK_IN, WAITING, TRIAGE, TREATMENT) plus
    the number of Agents in a terminal state (DISCHARGED,
    LEFT_WITHOUT_TREATMENT) is the number of Agents ever created for the
    Run, whatever the arrivals drawn and whatever the Agents attempt. *)
Theorem conservation (d : draws) (n : nat) :
  count_in non_terminal_states (run_ticks d n create)
  + count_in terminal_states (run_ticks d n create)
  = created (run_ticks d n create).
Proof.
  unfold count_in. rewrite count_split, length_app.
  apply population_created.
Qed.

End Conservation.

(** ** The stream consumer *)
Section Consumer.
Context {engine : JS.Engine}.
Import JS AISimulation.

Lemma is_str_true (v : jsval) (lit : string) :
  is_str v lit = true → v = JStr lit.
Proof.
  destruct v; simpl; try discriminate.
  intros E. apply bool_decide_eq_true in E. by subst.
Qed.

Lemma length_keep_last_20 (added prev : list jsval) :
  length (keep_last_20 added prev) ≤ 20.
Proof. unfold keep_last_20. rewrite length_take. lia. Qed.

(** What [add_insights] does to the list, in each of its outcomes. *)
Lemma add_insights_spec (v : jsval) (s s' : state) :
  add_insights v s = Normal s' →
  isRunning s' = isRunning s ∧
  (insights s' = insights s
   ∨ ∃ added, spread v = Some added ∧ insights s' = keep_last_20 added (insights s)).
Proof.
  unfold add_insights.
  destruct (truthy v && length_positive v).
  - destruct (spread v) as [added|] eqn:E; [|discriminate].
    intros [= <-]. simpl. split; [reflexivity|]. right. by exists added.
  - intros [= <-]. auto.
Qed.

Lemma add_insights_no_throw (v : jsval) (s : state) msg s' :
  add_insights v s ≠ Throw msg s'.
Proof.
  unfold add_insights.
  destruct (truthy v && length_positive v); [destruct (spread v)|]; discriminate.
Qed.

(** Iterable, non-empty insights are added in front and the list is cut. *)
Lemma add_insights_adds (v : jsval) (added : list jsval) (s : state) :
  spread v = Some added → added ≠ [] →
  add_insights v s = Normal (setInsights (keep_last_20 added (insights s)) s).
Proof.
  intros Hs Hne. unfold add_insights.
  assert (truthy v && length_positive v = true) as ->.
  { destruct v; simpl in *; try discriminate.
    - injection Hs as <-. destruct s0; [done|]. reflexivity.
    - injection Hs as <-. by destruct xs. }
  by rewrite Hs.
Qed.

(** No stream message ever marks the run as running, and none lets the
    list grow past the bound. *)
Lemma handleWebSocketMessage_keeps (data : jsval) (s s' : state) :
  state_after (handleWebSocketMessage data s) = Some s' →
  (isRunning s = false → isRunning s' = false)
  ∧ (length (insights s) ≤ 20 → length (insights s') ≤ 20).
Proof.
  unfold handleWebSocketMessage.
  destruct (get_prop data "type") as [type|]; [|by intros [= <-]].
  destruct (is_str type "initial_state").
  { destruct (get_prop data "data") as [d|]; [|by intros [= <-]].
    destruct (get_prop d "current_state"); by intros [= <-]. }
  destruct (is_str type "simulation_update").
  { destruct (get_prop data "state") as [st|]; [|by intros [= <-]].
    destruct (get_prop data "agents") as [ags|]; [|by intros [= <-]].
    destruct (get_prop data "new_insights") as [ni|]; [|by intros [= <-]].
    destruct (add_insights ni _) as [s2|msg s2|] eqn:E; simpl; [| |discriminate].
    - intros [= <-]. apply add_insights_spec in E as [Hr [Hi | (added & _ & Hi)]];
        rewrite Hr, Hi; simpl; split; auto.
      intros _. apply length_keep_last_20.
    - by apply add_insights_no_throw in E. }
  destruct (is_str type "simulation_completed"); [by intros [= <-]|].
  destruct (is_str type "simulation_error"); by intros [= <-].
Qed.

(** An event the page survives: the handler's state, which renders. *)
Lemma rerender_after (c : completion state) (s' : state) :
  state_after (rerender c) = Some s' →
  state_after c = Some s' ∧ renders s' = true.
Proof.
  unfold rerender. destruct (state_after c) as [s1|] eqn:E; [|discriminate].
  destruct (renders s1) eqn:R; [|discriminate].
  rewrite E. by intros [= <-].
Qed.

Lemma rerender_renders (c : completion state) (s' : state) :
  state_after c = Some s' → renders s' = true → rerender c = c.
Proof. intros E R. unfold rerender. by rewrite E, R. Qed.

Lemma rerender_crash (c : completion state) (s' : state) :
  state_after c = Some s' → renders s' = false → rerender c = RenderCrash.
Proof. intros E R. unfold rerender. by rewrite E, R. Qed.

Lemma on_ws_event_keeps (e : ws_event) (s s' : state) :
  state_after (on_ws_event e s) = Some s' →
  (isRunning s = false → isRunning s' = false)
  ∧ (length (insights s) ≤ 20 → length (insights s') ≤ 20).
Proof.
  intros E. apply rerender_after in E as [E _]. revert E.
  destruct e; simpl; try (by intros [= <-]).
  apply handleWebSocketMessage_keeps.
Qed.

Lemma on_ws_events_keep (events : list ws_event) (s s' : state) :
  on_ws_events events s = Some s' →
  (isRunning s = false → isRunning s' = false)
  ∧ (length (insights s) ≤ 20 → length (insights s') ≤ 20).
Proof.
  revert s. induction events as [|e rest IH]; intros s; simpl.
  - by intros [= <-].
  - destruct (state_after (on_ws_event e s)) as [s1|] eqn:E; [|discriminate].
    intros Hrest. apply on_ws_event_keeps in E as [E1 E2].
    apply IH in Hrest as [R1 R2]. split; auto.
Qed.

Lemma handleQueryResult_keeps (result : jsval) (s s' : state) :
  state_after (handleQueryResult result s) = Some s' →
  isRunning s' = isRunning s ∧ isConnected s' = isConnected s
  ∧ (length (insights s) ≤ 20 → length (insights s') ≤ 20).
Proof.
  unfold handleQueryResult.
  destruct (get_prop result "insights") as [ins|]; [|by intros [= <-]].
  destruct (get_prop result "metrics") as [metrics|]; [|by intros [= <-]].
  destruct (add_insights ins _) as [s2|msg s2|] eqn:E; simpl; [| |discriminate].
  - assert (isRunning s2 = isRunning s ∧ isConnected s2 = isConnected s
            ∧ (length (insights s) ≤ 20 → length (insights s2) ≤ 20)) as (A & B & C).
    { unfold add_insights in E.
      destruct (truthy ins && length_positive ins).
      - destruct (spread ins); [|discriminate]. injection E as <-. simpl.
        repeat split. intros _. apply length_keep_last_20.
      - injection E as <-. simpl. auto. }
    destruct (truthy metrics); intros [= <-]; simpl; auto.
  - by apply add_insights_no_throw in E.
Qed.

End Consumer.

Section StreamProtocol.
Context {engine : JS.Engine}.
Import JS AISimulation.

(** A message whose type cannot even be read (the frame [null]) raises in
    the handler and changes nothing either. *)
Lemma untyped_message_ignored (data : jsval) (s : state) :
  get_prop data "type" = None →
  state_after (handleWebSocketMessage data s) = Some s.
Proof. intros E. unfold handleWebSocketMessage. by rewrite E. Qed.

(** The messages the [switch] has no [case] for: those whose type is none
    of the four, and those whose type cannot be read. *)
Lemma kind_of_unknown (data : jsval) :
  kind_of data = Unknown
  ↔ ∀ type, get_prop data "type" = Some type → known_type type = false.
Proof.
  unfold kind_of, known_type.
  destruct (get_prop data "type") as [type|]; [|by split].
  split.
  - intros K ? [= <-].
    destruct (is_str type "initial_state"); [discriminate|].
    destruct (is_str type "simulation_update"); [discriminate|].
    destruct (is_str type "simulation_completed"); [discriminate|].
    by destruct (is_str type "simulation_error").
  - intros K. specialize (K type eq_refl).
    destruct (is_str type "initial_state"); [discriminate|].
    destruct (is_str type "simulation_update"); [discriminate|].
    destruct (is_str type "simulation_completed"); [discriminate|].
    by destruct (is_str type "simulation_error").
Qed.

(** C8, as the code has it.  Outside the known protocol the handler is a
    no-op: for a message whose type is none of [initial_state],
    [simulation_update], [simulation_completed], [simulation_error], the
    whole consumer state (current state, agents, insights, running flag and
    the rest) is left as it was.  It is total but for one frame: a message
    that is an object, an array, a string, a number or a boolean makes the
    handler return; [null], whose type cannot be read, makes it raise a
    [TypeError], the state being left as it was here too. *)
Theorem unknown_message_ignored (data : jsval) (s : state) :
  kind_of data = Unknown →
  state_after (handleWebSocketMessage data s) = Some s
  ∧ handleWebSocketMessage data s
    = if unreadable data then Throw (TypeError_message data "type") s
      else Normal s.
Proof.
  intros K.
  assert (handleWebSocketMessage data s
          = if unreadable data then Throw (TypeError_message data "type") s
            else Normal s) as ->.
  { unfold handleWebSocketMessage.
    destruct (get_prop data "type") as [type|] eqn:E.
    - pose proof (proj1 (kind_of_unknown data) K type E) as K'.
      clear K. rename K' into K. unfold known_type in K.
      apply orb_false_iff in K as [K Herr].
      apply orb_false_iff in K as [K Hcompl].
      apply orb_false_iff in K as [Hinit Hupd].
      rewrite Hinit, Hupd, Hcompl, Herr.
      by destruct data.
    - by destruct data. }
  split; [|reflexivity]. by destruct (unreadable data).
Qed.

(** A terminal message, whichever of the two, marks the run as not
    running and changes nothing else. *)
Lemma terminal_message_stops (data : jsval) (s : state) :
  kind_of data = Terminal →
  handleWebSocketMessage data s = Normal (setIsRunning false s).
Proof.
  unfold kind_of, handleWebSocketMessage.
  destruct (get_prop data "type") as [type|]; [|discriminate].
  destruct (is_str type "initial_state"); [discriminate|].
  destruct (is_str type "simulation_update"); [discriminate|].
  destruct (is_str type "simulation_completed"); [reflexivity|].
  destruct (is_str type "simulation_error"); [reflexivity|discriminate].
Qed.

Lemma update_message_fields (run_id : string) (u : Core.update) :
  get_prop (Core.update_message run_id u) "state" = Some (Core.update_state u)
  ∧ get_prop (Core.update_message run_id u) "agents"
    = Some (JArr (Core.update_agents u))
  ∧ get_prop (Core.update_message run_id u) "new_insights"
    = Some (JArr (Core.update_insights u)).
Proof. repeat split. Qed.

Lemma on_ws_events_app (l1 l2 : list ws_event) (s : state) :
  on_ws_events (l1 ++ l2) s = on_ws_events l1 s ≫= on_ws_events l2.
Proof.
  revert s. induction l1 as [|e l1 IH]; intros s; simpl; [reflexivity|].
  destruct (state_after (on_ws_event e s)); [apply IH | reflexivity].
Qed.

(** Nothing is published on a closed channel. *)
Lemma publish_closed (stopped : string → jsval) (run_id : string)
    (c : Core.channel) (events : list Core.run_event) :
  Core.closed c = true → foldl (Core.publish stopped run_id) c events = c.
Proof.
  intros Hc. induction events as [|e rest IH]; [reflexivity|].
  simpl. unfold Core.publish at 2. by rewrite Hc.
Qed.

(** The invariant of an open channel: the events of the Run append their
    updates, up to the first termination, whose message is the last. *)
Lemma publish_open (stopped : string → jsval) (run_id : string)
    (c : Core.channel) (events : list Core.run_event) :
  Core.closed c = false →
  Core.delivered (foldl (Core.publish stopped run_id) c events)
  = Core.delivered c
    ++ map (Core.update_message run_id) (ticks_before_end events)
    ++ match ending events with
       | Some t => [Core.terminal_message stopped run_id t]
       | None => []
       end
  ∧ Core.closed (foldl (Core.publish stopped run_id) c events)
    = bool_decide (is_Some (ending events)).
Proof.
  revert c. induction events as [|e rest IH]; intros c Hc.
  - simpl. rewrite app_nil_r. by rewrite Hc.
  - simpl. unfold Core.publish at 2 4. rewrite Hc.
    destruct e as [u | t].
    + destruct (IH {| Core.delivered := Core.delivered c ++ [Core.update_message run_id u];
                      Core.closed := false |} eq_refl) as [-> ->].
      simpl. by rewrite <- app_assoc.
    + rewrite publish_closed by reflexivity. simpl. by split.
Qed.

(** C2. Every message on a Run's stream is an initial full-state message,
    a per-tick update carrying the state, the agent summaries and the newly
    raised insights, or a terminal message: whatever the Run does after a
    subscription, the channel has delivered the initial message, then the
    updates of the ticks made before the Run ended, then, once it has ended
    (stopped, completed or failed), its one terminal message, after which
    the channel is closed and delivers nothing.  The consumer tells the
    three kinds apart by their type; and when it processes a terminal
    message (completion or error) it marks the run as not running, which no
    later event of the socket undoes.  The closing of the channel marks the
    run as not running as well, whatever the terminal message was. *)
Theorem stream_messages_and_termination (stopped : string → jsval)
    (run_id : string) (snapshot : jsval) (events : list Core.run_event)
    (s : state) (later : list ws_event) :
  Core.delivered (Core.broadcast stopped run_id snapshot events)
  = Core.initial_message run_id snapshot
    :: map (Core.update_message run_id) (ticks_before_end events)
    ++ match ending events with
       | Some t => [Core.terminal_message stopped run_id t]
       | None => []
       end
  ∧ Core.closed (Core.broadcast stopped run_id snapshot events)
    = bool_decide (is_Some (ending events))
  ∧ (∀ more, is_Some (ending events) →
       Core.broadcast stopped run_id snapshot (events ++ more)
       = Core.broadcast stopped run_id snapshot events)
  ∧ kind_of (Core.initial_message run_id snapshot) = InitialState
  ∧ (∀ u, kind_of (Core.update_message run_id u) = Update
          ∧ get_prop (Core.update_message run_id u) "state"
            = Some (Core.update_state u)
          ∧ get_prop (Core.update_message run_id u) "agents"
            = Some (JArr (Core.update_agents u))
          ∧ get_prop (Core.update_message run_id u) "new_insights"
            = Some (JArr (Core.update_insights u)))
  ∧ (∀ total_steps final_metrics error,
       kind_of (Core.terminal_message stopped run_id
                  (Core.Completed total_steps final_metrics)) = Terminal
       ∧ kind_of (Core.terminal_message stopped run_id (Core.Failed error))
         = Terminal)
  ∧ (∀ data, kind_of data = Terminal →
       handleWebSocketMessage data s = Normal (setIsRunning false s)
       ∧ isRunning (setIsRunning false s) = false
       ∧ ∀ s', on_ws_events later (setIsRunning false s) = Some s' →
               isRunning s' = false)
  ∧ (∀ s', on_ws_events (Close :: later) s = Some s' → isRunning s' = false).
Proof.
  destruct (publish_open stopped run_id (Core.subscribe run_id snapshot)
              events eq_refl) as [Hd Hc].
  split; [exact Hd|]. split; [exact Hc|].
  split.
  { intros more He. unfold Core.broadcast. rewrite foldl_app.
    apply publish_closed. rewrite Hc. by apply bool_decide_eq_true. }
  split; [reflexivity|].
  split; [intros u; split; [reflexivity | apply update_message_fields]|].
  split; [by intros|].
  split.
  { intros data Hk. split; [by apply terminal_message_stops|].
    split; [reflexivity|].
    intros s' Hs'. by apply on_ws_events_keep in Hs' as [Hr _]; auto. }
  intros s'. simpl.
  destruct (state_after (on_ws_event Close s)) as [s1|] eqn:E; [|discriminate].
  apply rerender_after in E as [[= <-] _].
  intros Hs'. by apply on_ws_events_keep in Hs' as [Hr _]; auto.
Qed.

(** A Run followed from the subscription to its end: the channel has
    delivered the complete stream, whatever is reported afterwards. *)
Lemma complete_stream_delivered (stopped : string → jsval) (run_id : string)
    (snapshot : jsval) (updates : list Core.update) (t : Core.termination)
    (more : list Core.run_event) :
  Core.delivered
    (Core.broadcast stopped run_id snapshot
       (map Core.Ticked updates ++ Core.Terminated t :: more))
  = Core.stream stopped run_id snapshot updates t.
Proof.
  destruct (publish_open stopped run_id (Core.subscribe run_id snapshot)
              (map Core.Ticked updates ++ Core.Terminated t :: more) eq_refl)
    as [Hd _].
  unfold Core.broadcast. rewrite Hd. clear Hd.
  assert (ticks_before_end (map Core.Ticked updates ++ Core.Terminated t :: more)
          = updates
          ∧ ending (map Core.Ticked updates ++ Core.Terminated t :: more) = Some t)
    as [-> ->]; [|reflexivity].
  induction updates as [|u rest [IH1 IH2]]; [by split|].
  simpl. by rewrite IH1, IH2.
Qed.

(** C7. The retained insight list is ordered and bounded: an operation that
    carries new insights (a per-tick update with [new_insights], a query
    result with [insights]) puts them in front of the older ones, in the
    order received, and keeps the first 20 of the result. *)
Theorem insights_newest_first_bounded (op : operation) (v : jsval)
    (added : list jsval) (s : state) :
  carried op = Some v →
  spread v = Some added →
  0 < length added →
  ∃ s', perform op s = Normal s'
        ∧ insights s' = take 20 (added ++ insights s)
        ∧ length (insights s') ≤ 20.
Proof.
  intros Hc Hs Hlen.
  assert (added ≠ []) as Hne by (intros ->; simpl in Hlen; lia).
  destruct op as [data | result]; simpl in *.
  - unfold kind_of in Hc. unfold handleWebSocketMessage.
    destruct (get_prop data "type") as [type|] eqn:Et; [|discriminate].
    destruct (is_str type "initial_state"); [discriminate|].
    destruct (is_str type "simulation_update"); cycle 1.
    { destruct (is_str type "simulation_completed"); [discriminate|].
      destruct (is_str type "simulation_error"); discriminate. }
    rewrite Hc.
    destruct (get_prop data "state") as [st|] eqn:Est; cycle 1.
    { destruct data; simpl in *; discriminate. }
    destruct (get_prop data "agents") as [ags|] eqn:Eag; cycle 1.
    { destruct data; simpl in *; discriminate. }
    rewrite (add_insights_adds v added _ Hs Hne). simpl.
    eexists. split; [reflexivity|]. simpl.
    split; [reflexivity | apply length_keep_last_20].
  - unfold handleQueryResult. rewrite Hc.
    destruct (get_prop result "metrics") as [metrics|] eqn:Em; cycle 1.
    { destruct result; simpl in *; discriminate. }
    rewrite (add_insights_adds v added _ Hs Hne).
    destruct (truthy metrics); eexists; (split; [reflexivity|]); simpl;
      (split; [reflexivity | apply length_keep_last_20]).
Qed.

(** Whatever the stream sends, the list never grows past the bound. *)
Lemma insights_never_exceed_20 (events : list ws_event) (s' : state) :
  on_ws_events events initial_state = Some s' → length (insights s') ≤ 20.
Proof.
  intros Hs'. apply on_ws_events_keep in Hs' as [_ Hb].
  apply Hb. simpl. lia.
Qed.

End StreamProtocol.

(** ** The metric cards *)
Section Metrics.
Context {engine : JS.Engine}.
Import JS MetricsDisplay.

(** [getTrend] returns [null] exactly when one of its arguments is falsy. *)
Lemma getTrend_null (current baseline : jsval) :
  getTrend current baseline = None
  ↔ truthy baseline = false ∨ truthy current = false.
Proof.
  unfold getTrend.
  destruct (truthy baseline), (truthy current); simpl; split;
    try discriminate; auto; intros [|]; discriminate.
Qed.

Lemma absent_or_zero_falsy (v : jsval) :
  absent_or_zero v = true → truthy v = false.
Proof.
  destruct v; simpl; try discriminate; try reflexivity.
  by intros ->.
Qed.

Lemma proper_number_truthy (v : jsval) :
  number_or_absent v = true → absent_or_zero v = false → truthy v = true.
Proof.
  destruct v; simpl; try discriminate.
  intros Hn Hz. rewrite Hz. simpl. by rewrite Hn.
Qed.

(** C9. [getTrend] never divides by zero.  For arguments that are numbers
    or absent: when baseline or current is absent or zero it returns
    [null]; otherwise the baseline it divides by is not zero and it returns
    the rounded absolute percent change
    [(current - baseline) / baseline * 100], with direction ['down'] and
    the positive flag set exactly when [current < baseline]. *)
Theorem getTrend_spec (current baseline : jsval) :
  number_or_absent current = true →
  number_or_absent baseline = true →
  if absent_or_zero baseline || absent_or_zero current
  then getTrend current baseline = None
  else
    PrimFloat.eqb (ToNumber baseline) 0 = false
    ∧ getTrend current baseline
      = Some {| trend_value :=
                  Math_abs (Math_round
                    ((ToNumber current - ToNumber baseline)
                     / ToNumber baseline * 100)%float);
                direction :=
                  if PrimFloat.ltb (ToNumber current) (ToNumber baseline)
                  then "down" else "up";
                positive := PrimFloat.ltb (ToNumber current) (ToNumber baseline) |}.
Proof.
  intros Hc Hb.
  destruct (absent_or_zero baseline) eqn:Zb; simpl.
  { apply getTrend_null. left. by apply absent_or_zero_falsy. }
  destruct (absent_or_zero current) eqn:Zc.
  { apply getTrend_null. right. by apply absent_or_zero_falsy. }
  pose proof (proper_number_truthy _ Hb Zb) as Tb.
  pose proof (proper_number_truthy _ Hc Zc) as Tc.
  unfold getTrend. rewrite Tb, Tc. simpl.
  destruct baseline as [| | |b| | |]; try discriminate.
  destruct current as [| | |c| | |]; try discriminate.
  split; [exact Zb | reflexivity].
Qed.

(** C10. A metrics snapshot that omits a field, or holds a zero or another
    falsy value there, is rendered with the fixed default of the card and
    without failing: 0 patients waiting, 0 min average wait, 50%
    satisfaction, 0% provider utilization, $150 cost per visit, 0% mental
    health access. *)
Theorem missing_metric_defaults (fields : gmap string jsval) :
  ∃ cards,
    metricCards (JObj fields) = Some cards
    ∧ map title cards
      = ["Patients Waiting"; "Avg Wait Time"; "Satisfaction";
         "Provider Utilization"; "Cost per Visit"; "Mental Health Access"]
    ∧ (truthy (default JUndefined (fields !! "patients_waiting")) = false →
       value <$> cards !! 0 = Some (JNum 0))
    ∧ (truthy (default JUndefined (fields !! "average_wait_time")) = false →
       value <$> cards !! 1 = Some (JStr "0 min"))
    ∧ (truthy (default JUndefined (fields !! "average_satisfaction")) = false →
       value <$> cards !! 2 = Some (JStr "50%"))
    ∧ (truthy (default JUndefined (fields !! "provider_utilization")) = false →
       value <$> cards !! 3 = Some (JStr "0%"))
    ∧ (truthy (default JUndefined (fields !! "cost_per_visit")) = false →
       value <$> cards !! 4 = Some (JStr "$150"))
    ∧ (truthy (default JUndefined (fields !! "mental_health_access")) = false →
       value <$> cards !! 5 = Some (JStr "0%")).
Proof.
  eexists. split; [reflexivity|]. split; [reflexivity|].
  repeat split; intros Hf; cbn [lookup list_lookup fmap option_fmap option_map value];
    unfold js_or; rewrite Hf; vm_compute; reflexivity.
Qed.

End Metrics.

(** ** The insight catalog and its presentation *)
Section Insights.
Import JS InsightPanel Core.

Lemma catalog_complete (d : detector) : d ∈ catalog.
Proof. destruct d; by apply (bool_decide_unpack _). Qed.

Lemma evaluate_tagged (detect : detector → option finding) (i : jsval) :
  i ∈ evaluate detect →
  ∃ d, d ∈ catalog ∧ get_prop i "type" = Some (JStr (type_tag d)).
Proof.
  unfold evaluate. intros (d & Hd & Hi)%list_elem_of_omap.
  exists d. split; [assumption|].
  destruct (detect d) as [f|]; [|discriminate].
  injection Hi as <-. reflexivity.
Qed.

(** C3, as the code has it. The catalog is fixed and has exactly five
    detectors (wait-time-crisis, bottleneck-detection, innovation-success,
    resource-optimization, social-network-pattern) and every Insight
    delivered carries the type tag of one of them; the insight presentation
    recognizes four of the five tags and maps them to an icon other than
    the default one, the bottleneck-detection tag getting the default. *)
Theorem catalog_tags_presented (detect : detector → option finding) :
  catalog = [WaitTimeCrisis; BottleneckDetection; InnovationSuccess;
             ResourceOptimization; SocialNetworkPattern]
  ∧ NoDup catalog
  ∧ (∀ d, d ∈ catalog)
  ∧ (∀ i, i ∈ evaluate detect →
       ∃ d, d ∈ catalog ∧ get_prop i "type" = Some (JStr (type_tag d)))
  ∧ (∀ d, getInsightIcon (JStr (type_tag d)) ≠ AlertCircle
          ↔ d ≠ BottleneckDetection).
Proof.
  split; [reflexivity|].
  split; [by apply (bool_decide_unpack _)|].
  split; [apply catalog_complete|].
  split; [intros i; apply evaluate_tagged|].
  intros d. destruct d; vm_compute; split; congruence.
Qed.

(** The bottleneck tag is not among the cases of [getInsightIcon], under
    the catalog's name or under the one the API document's example uses:
    it is shown with the default icon. *)
Lemma bottleneck_tag_default_icon :
  getInsightIcon (JStr (type_tag BottleneckDetection)) = AlertCircle
  ∧ getInsightIcon (JStr "bottleneck_detected") = AlertCircle
  ∧ ¬ (∀ d, d ∈ catalog → getInsightIcon (JStr (type_tag d)) ≠ AlertCircle).
Proof.
  split; [reflexivity|]. split; [reflexivity|].
  intros Hall. by apply (Hall BottleneckDetection (catalog_complete _)).
Qed.

End Insights.

(** ** The query client *)
Section QueryClient.
Context {engine : JS.Engine}.
Import JS NaturalLanguageQuery.

(** The callback reads and writes neither connection flag. *)
Lemma handleQueryResult_connection (result : jsval) (a : AISimulation.state)
    (connected running : bool) :
  AISimulation.handleQueryResult result (with_connection connected running a)
  = match AISimulation.handleQueryResult result a with
    | Normal a' => Normal (with_connection connected running a')
    | Throw msg a' => Throw msg (with_connection connected running a')
    | RenderCrash => RenderCrash
    end.
Proof.
  unfold AISimulation.handleQueryResult.
  destruct (get_prop result "insights") as [ins|]; [|reflexivity].
  destruct (get_prop result "metrics") as [metrics|]; [|reflexivity].
  unfold AISimulation.add_insights.
  destruct (truthy ins && length_positive ins).
  - destruct (spread ins); [|reflexivity].
    destruct (truthy metrics); reflexivity.
  - destruct (truthy metrics); reflexivity.
Qed.

(** With a known run and a query that is not blank, the request goes out. *)
Lemma processQuery_sent {P : Type} (simulationId : jsval)
    (callback : option (jsval → P → completion P))
    (env : environment) (n : state) (p : P) :
  truthy simulationId = true →
  bool_decide (trim (query n) = "") = false →
  sent (processQuery simulationId callback env n p)
  = Some (query_request simulationId (query n)).
Proof.
  intros Hid Hq. unfold processQuery. rewrite Hid, Hq. simpl.
  destruct (fetched env) as [msg | [|] statusText [msg | data]]; try reflexivity.
  destruct (get_prop data "response"); [|reflexivity].
  destruct (get_prop data "metrics"); [|reflexivity].
  destruct (get_prop data "insights"); [|reflexivity].
  destruct callback as [cb|]; [destruct (cb data p)|]; reflexivity.
Qed.

(** A failed call ends in the [catch] block: the message is stored and
    nothing else the user sees is touched. *)
Lemma processQuery_failed {P : Type} (simulationId : jsval)
    (callback : option (jsval → P → completion P))
    (env : environment) (n : state) (p : P) (msg : string) :
  truthy simulationId = true →
  bool_decide (trim (query n) = "") = false →
  call_failure (fetched env) = Some msg →
  processQuery simulationId callback env n p
  = {| component := setIsProcessing false (setError msg (setError "" (setIsProcessing true n)));
       owner := Some p;
       sent := Some (query_request simulationId (query n));
       spoken := None |}.
Proof.
  intros Hid Hq Hf. unfold processQuery. rewrite Hid, Hq. simpl.
  destruct (fetched env) as [m | [|] statusText [m | data]]; simpl in Hf;
    try discriminate; try (by injection Hf as <-).
  destruct data; simpl in Hf; try discriminate; by injection Hf as <-.
Qed.

(** A response that arrived and could be read. *)
Lemma processQuery_succeeded (env : environment) (n : state)
    (a : AISimulation.state) (statusText : string) (data resp metrics ins : jsval) :
  truthy (AISimulation.simulationId a) = true →
  bool_decide (trim (query n) = "") = false →
  fetched env = Responded true statusText (inr data) →
  get_prop data "response" = Some resp →
  get_prop data "metrics" = Some metrics →
  get_prop data "insights" = Some ins →
  component (Page.processQuery env n a)
  = setIsProcessing false (setQuery ""
      (setResponse resp
         (setConversationHistory
            ({| id := now env; timestamp := localeTime env;
                entry_query := query n; entry_response := resp;
                entry_metrics := js_or metrics (JObj ∅);
                entry_insights := js_or ins (JArr []) |}
             :: conversationHistory n)
            (setError "" (setIsProcessing true n)))))
  ∧ owner (Page.processQuery env n a)
    = state_after (AISimulation.handleQueryResult data a).
Proof.
  intros Hid Hq Hf Hr Hm Hi.
  unfold Page.processQuery, processQuery. rewrite Hid, Hq, Hf, Hr, Hm, Hi. simpl.
  destruct (AISimulation.handleQueryResult data a) as [a'|msg a'|] eqn:E;
    try (split; reflexivity).
  exfalso. revert E. unfold AISimulation.handleQueryResult. rewrite Hi, Hm.
  destruct (AISimulation.add_insights ins _) as [s2|m2 s2|] eqn:E2.
  - destruct (truthy metrics); discriminate.
  - by apply add_insights_no_throw in E2.
  - discriminate.
Qed.

End QueryClient.

Section QueryClaims.
Context {engine : JS.Engine}.
Import JS NaturalLanguageQuery.

(** What the client does with a response it could read: it shows
    [response], records it with the query, [metrics] (default [{}]) and
    [insights] (default [[]]) at the head of the conversation, clears the
    query and the error, and hands the whole record to its owner, which
    keeps it as the query response. *)
Lemma query_response_consumed (env : environment) (n : state)
    (a : AISimulation.state) (statusText : string)
    (data resp metrics ins : jsval) :
  truthy (AISimulation.simulationId a) = true →
  bool_decide (trim (query n) = "") = false →
  fetched env = Responded true statusText (inr data) →
  get_prop data "response" = Some resp →
  get_prop data "metrics" = Some metrics →
  get_prop data "insights" = Some ins →
  response (component (Page.processQuery env n a)) = resp
  ∧ conversationHistory (component (Page.processQuery env n a))
    = {| id := now env; timestamp := localeTime env;
         entry_query := query n; entry_response := resp;
         entry_metrics := js_or metrics (JObj ∅);
         entry_insights := js_or ins (JArr []) |}
      :: conversationHistory n
  ∧ error (component (Page.processQuery env n a)) = ""
  ∧ isProcessing (component (Page.processQuery env n a)) = false
  ∧ query (component (Page.processQuery env n a)) = ""
  ∧ owner (Page.processQuery env n a)
    = state_after (AISimulation.handleQueryResult data a)
  ∧ (∀ a', owner (Page.processQuery env n a) = Some a' →
           AISimulation.queryResponse a' = data).
Proof.
  intros Hid Hq Hf Hr Hm Hi.
  destruct (processQuery_succeeded env n a statusText data resp metrics ins
              Hid Hq Hf Hr Hm Hi) as [-> ->].
  repeat split.
  intros a'. unfold AISimulation.handleQueryResult. rewrite Hi, Hm.
  unfold AISimulation.add_insights.
  destruct (truthy ins && length_positive ins);
    [destruct (spread ins)|]; try discriminate;
    destruct (truthy metrics); by intros [= <-].
Qed.

(** The fields of the record the endpoint returns. *)
Lemma query_response_fields (text : string) (r : Core.resolution) :
  get_prop (Core.query_response text r) "query" = Some (JStr text)
  ∧ get_prop (Core.query_response text r) "intent"
    = Some (JStr (Core.intent_tag (Core.resolved_intent r)))
  ∧ get_prop (Core.query_response text r) "confidence"
    = Some (JNum (Core.resolved_confidence r))
  ∧ get_prop (Core.query_response text r) "response"
    = Some (JStr (Core.resolved_response r))
  ∧ get_prop (Core.query_response text r) "scenario"
    = Some (default JUndefined (Core.resolved_scenario r))
  ∧ get_prop (Core.query_response text r) "concise_response" = Some JUndefined
  ∧ get_prop (Core.query_response text r) "detailed_response" = Some JUndefined
  ∧ get_prop (Core.query_response text r) "metrics" = Some JUndefined
  ∧ get_prop (Core.query_response text r) "insights" = Some JUndefined.
Proof.
  unfold Core.query_response.
  destruct (Core.resolved_scenario r); repeat split.
Qed.

(** C4, as the code has it. A delegation failure inside the Query Adapter
    (the external capability unavailable or timed out) degrades silently to
    the local fallback: the endpoint returns the record of the local
    heuristics' resolution, and the client shows its answer and no error.
    A failure of the query call itself (the request
    rejected, a status that is not OK, a body that is not JSON or is the
    JSON [null]) is caught by
    the client, which stops processing, stores the failure's message and
    shows it to the user whenever it is not empty; the response, the
    conversation and the query text are left as they were. *)
Theorem query_failure_handling {R P : Type} (local : string → R) (text : string)
    (simulationId : jsval) (callback : option (jsval → P → completion P))
    (env : environment) (n : state) (p : P) (msg : string) :
  truthy simulationId = true →
  bool_decide (trim (query n) = "") = false →
  call_failure (fetched env) = Some msg →
  (Core.answer local Core.Unavailable text = local text
   ∧ Core.answer local Core.TimedOut text = local text)
  ∧ (∀ heuristics d snapshot insight_history answering statusText a,
       d = Core.Unavailable ∨ d = Core.TimedOut →
       truthy (AISimulation.simulationId a) = true →
       fetched answering
       = Responded true statusText
           (inr (Core.query_endpoint heuristics d snapshot insight_history (query n))) →
       response (component (Page.processQuery answering n a))
       = JStr (Core.resolved_response (heuristics snapshot insight_history (query n)))
       ∧ error_displayed (component (Page.processQuery answering n a)) = false)
  ∧ error (component (processQuery simulationId callback env n p)) = msg
  ∧ error_displayed (component (processQuery simulationId callback env n p))
    = negb (bool_decide (msg = ""))
  ∧ isProcessing (component (processQuery simulationId callback env n p)) = false
  ∧ response (component (processQuery simulationId callback env n p)) = response n
  ∧ conversationHistory (component (processQuery simulationId callback env n p))
    = conversationHistory n
  ∧ query (component (processQuery simulationId callback env n p)) = query n
  ∧ owner (processQuery simulationId callback env n p) = Some p
  ∧ spoken (processQuery simulationId callback env n p) = None.
Proof.
  intros Hid Hq Hf.
  split; [by split|].
  split.
  { intros heuristics d snapshot insight_history answering statusText a Hd Ha Hfetched.
    unfold Core.query_endpoint in Hfetched.
    destruct (query_response_fields (query n)
                (Core.resolve heuristics d snapshot insight_history (query n)))
      as (_ & _ & _ & Hresp & _ & _ & _ & Hm & Hi).
    destruct (query_response_consumed answering n a statusText _ _ _ _
                Ha Hq Hfetched Hresp Hm Hi) as (-> & _ & Herr & _).
    unfold error_displayed. rewrite Herr.
    by destruct Hd as [-> | ->]. }
  rewrite (processQuery_failed simulationId callback env n p msg Hid Hq Hf).
  repeat split.
Qed.


(** C6, as the code has it. For a run with a known identifier and a query
    text that is not blank (something is left once the white space around
    it is trimmed), the query is issued, to the endpoint of that run and
    with that text, and its response is processed, whether or not the
    stream is connected: neither the request nor what the call does to the
    component, to its owner or to the speech output depends on the
    connection flags. *)
Theorem query_needs_no_subscription (env : environment) (n : state)
    (a : AISimulation.state) (connected running : bool) :
  truthy (AISimulation.simulationId a) = true →
  bool_decide (trim (query n) = "") = false →
  sent (Page.processQuery env n a)
  = Some (query_request (AISimulation.simulationId a) (query n))
  ∧ sent (Page.processQuery env n (with_connection connected running a))
    = sent (Page.processQuery env n a)
  ∧ component (Page.processQuery env n (with_connection connected running a))
    = component (Page.processQuery env n a)
  ∧ spoken (Page.processQuery env n (with_connection connected running a))
    = spoken (Page.processQuery env n a)
  ∧ owner (Page.processQuery env n (with_connection connected running a))
    = with_connection connected running <$> owner (Page.processQuery env n a)
  ∧ (∀ statusText data resp metrics ins,
       fetched env = Responded true statusText (inr data) →
       get_prop data "response" = Some resp →
       get_prop data "metrics" = Some metrics →
       get_prop data "insights" = Some ins →
       response (component (Page.processQuery env n a)) = resp
       ∧ owner (Page.processQuery env n a)
         = state_after (AISimulation.handleQueryResult data a)).
Proof.
  intros Hid Hq.
  split; [by apply processQuery_sent|].
  assert (Page.processQuery env n (with_connection connected running a)
          = {| component := component (Page.processQuery env n a);
               owner := with_connection connected running
                          <$> owner (Page.processQuery env n a);
               sent := sent (Page.processQuery env n a);
               spoken := spoken (Page.processQuery env n a) |}) as ->.
  { unfold Page.processQuery, processQuery.
    change (AISimulation.simulationId (with_connection connected running a))
      with (AISimulation.simulationId a).
    rewrite Hid, Hq. simpl.
    destruct (fetched env) as [m | [|] st [m | data]]; try reflexivity.
    destruct (get_prop data "response"); [|reflexivity].
    destruct (get_prop data "metrics"); [|reflexivity].
    destruct (get_prop data "insights"); [|reflexivity].
    rewrite handleQueryResult_connection.
    destruct (AISimulation.handleQueryResult data a); reflexivity. }
  do 4 (split; [reflexivity|]).
  intros statusText data resp metrics ins Hf Hr Hm Hi.
  by destruct (processQuery_succeeded env n a statusText data resp metrics ins
                 Hid Hq Hf Hr Hm Hi) as [-> ->].
Qed.

End QueryClaims.

(** ** The properties at concrete inputs *)
Section Examples.
Import JS.

(** Three ticks of the small Run: one Patient is waiting, the other was
    retired by its fault. *)
Example conservation_three_ticks :
  Core.run_ticks small_run 3 Core.create
  = {| Core.active := [ {| Core.agent_id := 0; Core.agent_state := Core.WAITING |} ];
       Core.history :=
         [ {| Core.agent_id := 1; Core.agent_state := Core.LEFT_WITHOUT_TREATMENT |} ];
       Core.created := 2;
       Core.tick := 3 |}.
Proof. reflexivity. Qed.

(** [Math.round] rounds ties towards +∞ and keeps the sign of a zero. *)
Example Math_round_ties :
  map Math_round [18.5; 2.5; -2.5; -0.5; 0.25; 28]%float
  = [19; 3; -2; -0; 0; 28]%float.
Proof. reflexivity. Qed.

(** The snapshot of the API document's update message, as the cards show
    it: 25 waiting, 19 min, and the defaults for what it does not carry. *)
Example documented_snapshot_cards :
  map MetricsDisplay.value
    (default []
       (MetricsDisplay.metricCards (engine := plain_engine)
          (JObj (<["patients_waiting" := JNum 25]>
                 (<["average_wait_time" := JNum 18.5]> ∅)))))
  = [JNum 25; JStr "19 min"; JStr "50%"; JStr "0%"; JStr "$150"; JStr "0%"].
Proof. vm_compute. reflexivity. Qed.

(** Twenty-five insights in one update: the first twenty are kept. *)
Example twenty_five_insights :
  AISimulation.insights
    <$> state_after
          (AISimulation.handleWebSocketMessage (engine := plain_engine)
             (Core.update_message "sim_abc123"
                {| Core.update_state := JObj ∅; Core.update_agents := [];
                   Core.update_insights := map (fun i => JStr (pretty i)) (seq 0 25) |})
             page)
  = Some (map (fun i => JStr (pretty i)) (seq 0 20)).
Proof. vm_compute. reflexivity. Qed.

(** [trim] takes blanks, line ends and no-break spaces off both ends and
    leaves those inside. *)
Example trim_both_ends :
  trim (String (ascii_of_nat 160) (" a" +:+ String (ascii_of_nat 160)
          ("b" +:+ String (ascii_of_nat 9) (String (ascii_of_nat 160)
             (String (ascii_of_nat 10) "")))))
  = "a" +:+ String (ascii_of_nat 160) "b".
Proof. reflexivity. Qed.

(** A query of one no-break space is blank: nothing is sent. *)
Example no_break_space_not_sent :
  trim (String (ascii_of_nat 160) "") = ""
  ∧ NaturalLanguageQuery.sent
      (Page.processQuery (engine := plain_engine)
         (answered (NaturalLanguageQuery.Responded true "OK" (inr documented_query_response)))
         (asking (String (ascii_of_nat 160) "")) page)
    = None.
Proof. split; reflexivity. Qed.

(** The page follows the stream of [streamed_run] from the opening of the
    socket to its closing: it ends connected to nothing, not running, with
    the snapshot, the agent and the two insights of the second tick, newest
    first. *)
Example completed_stream_followed :
  AISimulation.on_ws_events (engine := plain_engine)
    (AISimulation.Open
       :: map AISimulation.Message
            (Core.delivered (Core.broadcast stop_notice "sim_abc123" (JObj ∅) streamed_run))
       ++ [AISimulation.Close])
    (AISimulation.setIsRunning true page)
  = Some
      (with_connection false false
         (AISimulation.setInsights
            (Core.update_insights (tick_update 2) ++ Core.update_insights (tick_update 1))
            (AISimulation.setAgents (JArr (Core.update_agents (tick_update 2)))
               (AISimulation.setCurrentState (Core.update_state (tick_update 2)) page)))).
Proof. vm_compute. reflexivity. Qed.

(** An update whose state is [null] is handled, and the page is gone with
    the rendering that follows. *)
Example stateless_update_unmounts :
  AISimulation.on_ws_events (engine := plain_engine)
    [AISimulation.Message
       (JObj (<["type" := JStr "simulation_update"]>
              (<["state" := JNull]> (<["agents" := JArr []]> ∅))))]
    running_page
  = None.
Proof. vm_compute. reflexivity. Qed.

(** C2 at [streamed_run]: the channel has delivered the complete stream of
    two updates and the completion, and nothing of the tick reported after
    the end; once the page has processed the completion message, a late
    update, an unknown message and the closing of the socket leave the run
    marked as not running. *)
Lemma stream_messages_and_termination_witness :
  Core.delivered (Core.broadcast stop_notice "sim_abc123" (JObj ∅) streamed_run)
  = Core.stream stop_notice "sim_abc123" (JObj ∅)
      [tick_update 1; tick_update 2] (Core.Completed 2 (JObj ∅))
  ∧ AISimulation.handleWebSocketMessage (engine := plain_engine)
      (Core.terminal_message stop_notice "sim_abc123" (Core.Completed 2 (JObj ∅)))
      running_page
    = Normal (AISimulation.setIsRunning false running_page)
  ∧ ∃ s',
      AISimulation.on_ws_events (engine := plain_engine)
        [AISimulation.Message (Core.update_message "sim_abc123" (tick_update 3));
         AISimulation.Message (stop_notice "sim_abc123");
         AISimulation.Close]
        (AISimulation.setIsRunning false running_page)
      = Some s'
      ∧ AISimulation.insights s' = Core.update_insights (tick_update 3)
      ∧ AISimulation.isRunning s' = false.
Proof.
  destruct (stream_messages_and_termination (engine := plain_engine)
              stop_notice "sim_abc123" (JObj ∅) streamed_run running_page
              [AISimulation.Message (Core.update_message "sim_abc123" (tick_update 3));
               AISimulation.Message (stop_notice "sim_abc123");
               AISimulation.Close])
    as (Hshape & _ & _ & _ & _ & _ & Hterminal & _).
  split; [exact Hshape|].
  destruct (Hterminal
              (Core.terminal_message stop_notice "sim_abc123" (Core.Completed 2 (JObj ∅)))
              eq_refl) as (Hstop & _ & Hlater).
  split; [exact Hstop|].
  eexists. split; [vm_compute; reflexivity|].
  split; [reflexivity|].
  apply Hlater. vm_compute. reflexivity.
Defined.

(** C3: the bottleneck tag gets the default icon. *)
Lemma catalog_tags_presented_witness :
  InsightPanel.getInsightIcon (JStr (Core.type_tag Core.WaitTimeCrisis))
  = InsightPanel.AlertTriangle
  ∧ Core.BottleneckDetection ∈ Core.catalog.
Proof.
  destruct (catalog_tags_presented (fun _ => None)) as (_ & _ & Hin & _ & _).
  split; [reflexivity | apply Hin].
Defined.

(** C4: a status that is not OK is shown to the user. *)
Lemma failed_query_is_shown :
  NaturalLanguageQuery.error
    (NaturalLanguageQuery.component
       (Page.processQuery (engine := plain_engine)
          (answered (NaturalLanguageQuery.Responded false "Internal Server Error" (inl "")))
          (asking "What's the current wait time?") page))
  = "Query failed: Internal Server Error"
  ∧ NaturalLanguageQuery.error_displayed
      (NaturalLanguageQuery.component
         (Page.processQuery (engine := plain_engine)
            (answered (NaturalLanguageQuery.Responded false "Internal Server Error" (inl "")))
            (asking "What's the current wait time?") page))
    = true.
Proof. split; reflexivity. Qed.

(** C4 at a request that was rejected, and at a question the delegate
    does not answer in time. *)
Lemma query_failure_handling_witness :
  truthy (JStr "sim_abc123") = true
  ∧ bool_decide (trim "What's the current wait time?" = "") = false
  ∧ call_failure (engine := plain_engine) (NaturalLanguageQuery.Rejected "Failed to fetch")
    = Some "Failed to fetch"
  ∧ NaturalLanguageQuery.error
      (NaturalLanguageQuery.component
         (Page.processQuery (engine := plain_engine)
            (answered (NaturalLanguageQuery.Rejected "Failed to fetch"))
            (asking "What's the current wait time?") page))
    = "Failed to fetch"
  ∧ NaturalLanguageQuery.response
      (NaturalLanguageQuery.component
         (Page.processQuery (engine := plain_engine)
            (answered
               (NaturalLanguageQuery.Responded true "OK"
                  (inr (Core.query_endpoint nurse_heuristics Core.TimedOut
                          (JObj (<["patients_waiting" := JNum 25]> ∅)) []
                          "What's the current wait time?"))))
            (asking "What's the current wait time?") page))
    = JStr "Wait times would increase by 40%."
  ∧ NaturalLanguageQuery.error_displayed
      (NaturalLanguageQuery.component
         (Page.processQuery (engine := plain_engine)
            (answered
               (NaturalLanguageQuery.Responded true "OK"
                  (inr (Core.query_endpoint nurse_heuristics Core.TimedOut
                          (JObj (<["patients_waiting" := JNum 25]> ∅)) []
                          "What's the current wait time?"))))
            (asking "What's the current wait time?") page))
    = false.
Proof.
  do 3 (split; [reflexivity|]).
  destruct (query_failure_handling (engine := plain_engine)
              (fun _ => tt) "" (JStr "sim_abc123")
              (Some (AISimulation.handleQueryResult (engine := plain_engine)))
              (answered (NaturalLanguageQuery.Rejected "Failed to fetch"))
              (asking "What's the current wait time?") page "Failed to fetch"
              eq_refl eq_refl eq_refl)
    as (_ & Hfallback & Hshown & _).
  split; [exact Hshown|].
  exact (Hfallback nurse_heuristics Core.TimedOut
           (JObj (<["patients_waiting" := JNum 25]> ∅)) []
           (answered
              (NaturalLanguageQuery.Responded true "OK"
                 (inr (Core.query_endpoint nurse_heuristics Core.TimedOut
                         (JObj (<["patients_waiting" := JNum 25]> ∅)) []
                         "What's the current wait time?"))))
           "OK" page (or_intror eq_refl) eq_refl eq_refl).
Defined.



(** A response whose body is the JSON [null] is shown as an error. *)
Example null_body_is_shown :
  call_failure (engine := plain_engine)
    (NaturalLanguageQuery.Responded true "OK" (inr JNull))
  = Some "Cannot read properties (reading 'response')"
  ∧ NaturalLanguageQuery.error_displayed
      (NaturalLanguageQuery.component
         (Page.processQuery (engine := plain_engine)
            (answered (NaturalLanguageQuery.Responded true "OK" (inr JNull)))
            (asking "What's the current wait time?") page))
    = true.
Proof. split; reflexivity. Qed.

(** C6: a query of one blank is not empty, and is not sent. *)
Lemma blank_query_not_sent :
  bool_decide (NaturalLanguageQuery.query (asking " ") = "") = false
  ∧ Page.query_mounted page = true
  ∧ NaturalLanguageQuery.sent
      (Page.processQuery (engine := plain_engine)
         (answered (NaturalLanguageQuery.Responded true "OK" (inr documented_query_response)))
         (asking " ") page)
    = None.
Proof. repeat split. Qed.

(** C6 at a page whose socket is open and whose run is running, against
    the same page without a connection: the same request goes out and the
    panel ends in the same state. *)
Lemma query_needs_no_subscription_witness :
  truthy (AISimulation.simulationId page) = true
  ∧ bool_decide (trim "How many patients are in triage?" = "") = false
  ∧ AISimulation.isConnected running_page = true
  ∧ AISimulation.isConnected page = false
  ∧ NaturalLanguageQuery.sent
      (Page.processQuery (engine := plain_engine)
         (answered (NaturalLanguageQuery.Responded true "OK"
                      (inr documented_query_response)))
         (asking "How many patients are in triage?") running_page)
    = Some {| NaturalLanguageQuery.url :=
                "http://localhost:8000/api/v2/simulations/sim_abc123/query";
              NaturalLanguageQuery.method := "POST";
              NaturalLanguageQuery.content_type := "application/json";
              NaturalLanguageQuery.body :=
                JObj (<["query" := JStr "How many patients are in triage?"]>
                      (<["include_context" := JBool true]>
                       (<["voice_response" := JBool true]> ∅))) |}
  ∧ NaturalLanguageQuery.component
      (Page.processQuery (engine := plain_engine)
         (answered (NaturalLanguageQuery.Responded true "OK"
                      (inr documented_query_response)))
         (asking "How many patients are in triage?") running_page)
    = NaturalLanguageQuery.component
        (Page.processQuery (engine := plain_engine)
           (answered (NaturalLanguageQuery.Responded true "OK"
                        (inr documented_query_response)))
           (asking "How many patients are in triage?") page)
  ∧ AISimulation.queryResponse
      <$> NaturalLanguageQuery.owner
            (Page.processQuery (engine := plain_engine)
               (answered (NaturalLanguageQuery.Responded true "OK"
                            (inr documented_query_response)))
               (asking "How many patients are in triage?") running_page)
    = Some documented_query_response.
Proof.
  do 4 (split; [reflexivity|]).
  destruct (query_needs_no_subscription (engine := plain_engine)
              (answered (NaturalLanguageQuery.Responded true "OK"
                           (inr documented_query_response)))
              (asking "How many patients are in triage?") page true true
              eq_refl eq_refl)
    as (Hsent & Hsame & Hcomponent & _ & Howner & _).
  split; [etransitivity; [exact Hsame | exact Hsent]|].
  split; [exact Hcomponent|].
  etransitivity; [exact (f_equal (fmap AISimulation.queryResponse) Howner)|].
  reflexivity.
Defined.

(** C7: three insights arriving on the stream of a page that retains
    nineteen: the three come first, in the order received, followed by the
    first seventeen of the retained ones; the last two are dropped. *)
Lemma insights_newest_first_bounded_witness :
  carried (StreamMessage
             (Core.update_message "sim_abc123"
                {| Core.update_state := JObj ∅; Core.update_agents := [];
                   Core.update_insights := labelled "new_" 3 |}))
  = Some (JArr (labelled "new_" 3))
  ∧ spread (JArr (labelled "new_" 3)) = Some (labelled "new_" 3)
  ∧ 0 < length (labelled "new_" 3)
  ∧ ∃ s', perform (engine := plain_engine)
            (StreamMessage
               (Core.update_message "sim_abc123"
                  {| Core.update_state := JObj ∅; Core.update_agents := [];
                     Core.update_insights := labelled "new_" 3 |}))
            (AISimulation.setInsights (labelled "old_" 19) page)
          = Normal s'
          ∧ AISimulation.insights s' = labelled "new_" 3 ++ labelled "old_" 17
          ∧ length (AISimulation.insights s') = 20.
Proof.
  split; [reflexivity|]. split; [reflexivity|]. split; [simpl; lia|].
  destruct (insights_newest_first_bounded (engine := plain_engine)
              (StreamMessage
                 (Core.update_message "sim_abc123"
                    {| Core.update_state := JObj ∅; Core.update_agents := [];
                       Core.update_insights := labelled "new_" 3 |}))
              (JArr (labelled "new_" 3)) (labelled "new_" 3)
              (AISimulation.setInsights (labelled "old_" 19) page))
    as (s' & Hperformed & Hinsights & _); [reflexivity | reflexivity | simpl; lia |].
  exists s'. split; [exact Hperformed|].
  rewrite Hinsights. split; reflexivity.
Defined.

(** C8: the frame [null] has none of the four types, and the handler
    raises on it. *)
Lemma null_frame_raises :
  kind_of JNull = Unknown
  ∧ AISimulation.handleWebSocketMessage (engine := plain_engine) JNull page
    = Throw "Cannot read properties (reading 'type')" page.
Proof. split; reflexivity. Qed.

(** C8 at a heartbeat, which the protocol does not know. *)
Lemma unknown_message_ignored_witness :
  kind_of (JObj (<["type" := JStr "heartbeat"]> ∅)) = Unknown
  ∧ AISimulation.handleWebSocketMessage (engine := plain_engine)
      (JObj (<["type" := JStr "heartbeat"]> ∅)) running_page
    = Normal running_page.
Proof.
  split; [reflexivity|].
  apply (unknown_message_ignored (engine := plain_engine)
           (JObj (<["type" := JStr "heartbeat"]> ∅)) running_page).
  reflexivity.
Defined.

(** C9: an average wait of 18.5 minutes against the baseline of 28 is 34%
    down. *)
Lemma getTrend_spec_witness :
  number_or_absent (JNum 18.5) = true
  ∧ number_or_absent (JNum 28) = true
  ∧ MetricsDisplay.getTrend (engine := plain_engine) (JNum 18.5) (JNum 28)
    = Some {| MetricsDisplay.trend_value := 34;
              MetricsDisplay.direction := "down";
              MetricsDisplay.positive := true |}.
Proof.
  split; [reflexivity|]. split; [reflexivity|].
  exact (proj2 (getTrend_spec (engine := plain_engine) (JNum 18.5) (JNum 28)
                  eq_refl eq_refl)).
Defined.

(** C10: the empty snapshot a page starts with shows the six defaults. *)
Lemma missing_metric_defaults_witness :
  ∃ cards,
    MetricsDisplay.metricCards (engine := plain_engine) (JObj ∅) = Some cards
    ∧ MetricsDisplay.value <$> cards !! 0 = Some (JNum 0)
    ∧ MetricsDisplay.value <$> cards !! 1 = Some (JStr "0 min")
    ∧ MetricsDisplay.value <$> cards !! 2 = Some (JStr "50%")
    ∧ MetricsDisplay.value <$> cards !! 3 = Some (JStr "0%")
    ∧ MetricsDisplay.value <$> cards !! 4 = Some (JStr "$150")
    ∧ MetricsDisplay.value <$> cards !! 5 = Some (JStr "0%").
Proof.
  destruct (missing_metric_defaults (engine := plain_engine) ∅)
    as (cards & Hcards & _ & H0 & H1 & H2 & H3 & H4 & H5).
  exists cards. split; [exact Hcards|].
  repeat split; [apply H0 | apply H1 | apply H2 | apply H3 | apply H4 | apply H5];
    reflexivity.
Defined.

End Examples.

(** * Further properties of the components *)

(** ** The two handlers of the page *)
Section Handlers.
Context {engine : JS.Engine}.
Import JS AISimulation.

(** [add_insights] touches the insight list only. *)
Lemma add_insights_frame (v : jsval) (s s' : state) :
  add_insights v s = Normal s' →
  simulationId s' = simulationId s ∧ isRunning s' = isRunning s
  ∧ isConnected s' = isConnected s ∧ currentState s' = currentState s
  ∧ agents s' = agents s ∧ selectedAgent s' = selectedAgent s
  ∧ queryResponse s' = queryResponse s.
Proof.
  unfold add_insights.
  destruct (truthy v && length_positive v); [destruct (spread v)|];
    try discriminate; by intros [= <-].
Qed.

(** What a query result leaves in the page, when no queued update raised. *)
Lemma handleQueryResult_spec (result ins metrics : jsval) (s s' : state) :
  get_prop result "insights" = Some ins →
  get_prop result "metrics" = Some metrics →
  state_after (handleQueryResult result s) = Some s' →
  queryResponse s' = result
  ∧ agents s' = agents s ∧ simulationId s' = simulationId s
  ∧ selectedAgent s' = selectedAgent s
  ∧ currentState s'
    = (if truthy metrics then object_spread (currentState s) metrics
       else currentState s).
Proof.
  intros Hi Hm. unfold handleQueryResult. rewrite Hi, Hm.
  destruct (add_insights ins _) as [s2|msg s2|] eqn:E; simpl; [| |discriminate].
  - apply add_insights_frame in E as (E1 & _ & _ & E4 & E5 & E6 & E7).
    simpl in *. destruct (truthy metrics); intros [= <-]; simpl;
      rewrite ?E1, ?E4, ?E5, ?E6, ?E7; auto.
  - by apply add_insights_no_throw in E.
Qed.

(** X1. The metrics of a query result are merged into the current state
    field by field: a field the result carries takes the result's value, a
    field it does not carry keeps the value the page had. *)
Theorem query_metrics_merged (result ins : jsval) (m : gmap string jsval)
    (s s' : state) (k : string) :
  get_prop result "insights" = Some ins →
  get_prop result "metrics" = Some (JObj m) →
  state_after (handleQueryResult result s) = Some s' →
  get_prop (currentState s') k
  = Some (match m !! k with
          | Some v => v
          | None => default JUndefined (own_properties (currentState s) !! k)
          end).
Proof.
  intros Hi Hm Hs'.
  destruct (handleQueryResult_spec _ _ _ _ _ Hi Hm Hs') as (_ & _ & _ & _ & ->).
  simpl. f_equal. rewrite lookup_union.
  destruct (m !! k), (own_properties (currentState s) !! k); reflexivity.
Qed.

(** What a per-tick update leaves in the page. *)
Lemma update_spec (data st ags : jsval) (s s' : state) :
  kind_of data = Update →
  get_prop data "state" = Some st →
  get_prop data "agents" = Some ags →
  state_after (handleWebSocketMessage data s) = Some s' →
  currentState s' = st ∧ agents s' = ags
  ∧ queryResponse s' = queryResponse s ∧ isRunning s' = isRunning s.
Proof.
  unfold kind_of, handleWebSocketMessage. intros Hk Hst Hag.
  destruct (get_prop data "type") as [type|]; [|discriminate].
  destruct (is_str type "initial_state"); [discriminate|].
  destruct (is_str type "simulation_update"); cycle 1.
  { destruct (is_str type "simulation_completed"); [discriminate|].
    destruct (is_str type "simulation_error"); discriminate. }
  rewrite Hst, Hag.
  destruct (get_prop data "new_insights") as [ni|] eqn:Eni;
      [|by destruct data; simpl in *].
  destruct (add_insights ni _) as [s2|msg s2|] eqn:E; simpl; [| |discriminate].
  - apply add_insights_frame in E as (_ & E2 & _ & E4 & E5 & _ & E7).
    intros [= <-]. simpl in *. auto.
  - by apply add_insights_no_throw in E.
Qed.

(** X2. A per-tick update replaces the current state and the agents
    wholesale, where a query result merges: whatever metrics an earlier
    query result merged into the page are gone after the next update,
    while the query response itself stays. *)
Theorem update_replaces_state (result data st ags : jsval) (s s1 s2 : state) :
  state_after (handleQueryResult result s) = Some s1 →
  kind_of data = Update →
  get_prop data "state" = Some st →
  get_prop data "agents" = Some ags →
  state_after (handleWebSocketMessage data s1) = Some s2 →
  currentState s2 = st ∧ agents s2 = ags ∧ queryResponse s2 = result.
Proof.
  intros H1 Hk Hst Hag H2.
  destruct (update_spec _ _ _ _ _ Hk Hst Hag H2) as (-> & -> & -> & _).
  repeat split.
  revert H1. unfold handleQueryResult.
  destruct (get_prop result "insights") as [ins|]; [|by intros [= <-]].
  destruct (get_prop result "metrics") as [metrics|]; [|by intros [= <-]].
  destruct (add_insights ins _) as [s3|msg s3|] eqn:E; simpl; [| |discriminate].
  - apply add_insights_frame in E as (_ & _ & _ & _ & _ & _ & E7).
    destruct (truthy metrics); intros [= <-]; simpl; by rewrite ?E7.
  - by apply add_insights_no_throw in E.
Qed.

Lemma handleWebSocketMessage_frame (data : jsval) (s s' : state) :
  state_after (handleWebSocketMessage data s) = Some s' →
  simulationId s' = simulationId s ∧ selectedAgent s' = selectedAgent s
  ∧ queryResponse s' = queryResponse s ∧ isConnected s' = isConnected s.
Proof.
  unfold handleWebSocketMessage.
  destruct (get_prop data "type") as [type|]; [|by intros [= <-]].
  destruct (is_str type "initial_state").
  { destruct (get_prop data "data") as [d|]; [|by intros [= <-]].
    destruct (get_prop d "current_state"); by intros [= <-]. }
  destruct (is_str type "simulation_update").
  { destruct (get_prop data "state") as [st|]; [|by intros [= <-]].
    destruct (get_prop data "agents") as [ags|]; [|by intros [= <-]].
    destruct (get_prop data "new_insights") as [ni|]; [|by intros [= <-]].
    destruct (add_insights ni _) as [s2|msg s2|] eqn:E; simpl; [| |discriminate].
    - apply add_insights_frame in E as (E1 & _ & E3 & _ & _ & E6 & E7).
      intros [= <-]. simpl in *. auto.
    - by apply add_insights_no_throw in E. }
  destruct (is_str type "simulation_completed"); [by intros [= <-]|].
  destruct (is_str type "simulation_error"); by intros [= <-].
Qed.

(** A frame that is not a terminal message leaves the running flag. *)
Lemma handleWebSocketMessage_running (data : jsval) (s s' : state) :
  kind_of data ≠ Terminal →
  state_after (handleWebSocketMessage data s) = Some s' →
  isRunning s' = isRunning s.
Proof.
  unfold kind_of, handleWebSocketMessage.
  destruct (get_prop data "type") as [type|]; [|by intros _ [= <-]].
  destruct (is_str type "initial_state").
  { intros _. destruct (get_prop data "data") as [d|]; [|by intros [= <-]].
    destruct (get_prop d "current_state"); by intros [= <-]. }
  destruct (is_str type "simulation_update").
  { intros _. destruct (get_prop data "state") as [st|]; [|by intros [= <-]].
    destruct (get_prop data "agents") as [ags|]; [|by intros [= <-]].
    destruct (get_prop data "new_insights") as [ni|]; [|by intros [= <-]].
    destruct (add_insights ni _) as [s2|msg s2|] eqn:E; simpl; [| |discriminate].
    - apply add_insights_frame in E as (_ & E2 & _). by intros [= <-].
    - by apply add_insights_no_throw in E. }
  destruct (is_str type "simulation_completed"); [by intros ?|].
  destruct (is_str type "simulation_error"); [by intros ?|].
  by intros _ [= <-].
Qed.

(** X3. Nothing that arrives on the socket touches the run identifier, the
    selected agent or the query response.  Frames, whatever they carry,
    leave the connection indicator alone: only the opening, the failure and
    the closing of the socket move it.  And the run stays marked as it was
    until a terminal message or the closing of the socket: no update and no
    unknown or broken frame stops it. *)
Theorem socket_events_frame (events : list ws_event) (s s' : state) :
  on_ws_events events s = Some s' →
  simulationId s' = simulationId s
  ∧ selectedAgent s' = selectedAgent s
  ∧ queryResponse s' = queryResponse s
  ∧ (Forall (fun e => e ≠ Open ∧ e ≠ Error ∧ e ≠ Close) events →
     isConnected s' = isConnected s)
  ∧ (Forall (fun e => e ≠ Close ∧ ∀ data, e = Message data → kind_of data ≠ Terminal)
       events →
     isRunning s' = isRunning s).
Proof.
  revert s. induction events as [|e rest IH]; intros s; simpl.
  { intros [= <-]. auto. }
  destruct (state_after (on_ws_event e s)) as [s1|] eqn:E; [|discriminate].
  intros Hrest. apply IH in Hrest as (R1 & R2 & R3 & R4 & R5).
  assert (simulationId s1 = simulationId s ∧ selectedAgent s1 = selectedAgent s
          ∧ queryResponse s1 = queryResponse s
          ∧ (e ≠ Open ∧ e ≠ Error ∧ e ≠ Close → isConnected s1 = isConnected s)
          ∧ (e ≠ Close ∧ (∀ data, e = Message data → kind_of data ≠ Terminal) →
             isRunning s1 = isRunning s))
    as (E1 & E2 & E3 & E4 & E5).
  { apply rerender_after in E as [E _]. destruct e; simpl in E.
    - injection E as <-. do 3 (split; [reflexivity|]).
      split; [by intros [? _] | reflexivity].
    - pose proof (handleWebSocketMessage_frame _ _ _ E) as (? & ? & ? & ?).
      do 4 (split; [by auto|]). intros [_ Hk]. specialize (Hk data eq_refl).
      by apply (handleWebSocketMessage_running data s s1).
    - injection E as <-. auto.
    - injection E as <-. do 3 (split; [reflexivity|]).
      split; [by intros (_ & ? & _) | reflexivity].
    - injection E as <-. do 3 (split; [reflexivity|]).
      split; [by intros (_ & _ & ?) | by intros [? _]]. }
  rewrite R1, R2, R3. repeat split; auto.
  - intros Hall. apply Forall_cons in Hall as [He Hr].
    rewrite (R4 Hr). auto.
  - intros Hall. apply Forall_cons in Hall as [He Hr].
    rewrite (R5 Hr). auto.
Qed.

(** An operation carrying a non-empty iterable adds it in front. *)
Lemma perform_adds (op : operation) (v : jsval) (added : list jsval)
    (s s' : state) :
  carried op = Some v → spread v = Some added → added ≠ [] →
  state_after (perform op s) = Some s' →
  insights s' = keep_last_20 added (insights s).
Proof.
  intros Hc Hs Hne.
  destruct op as [data | result]; simpl in *.
  - unfold kind_of in Hc. unfold handleWebSocketMessage.
    destruct (get_prop data "type") as [type|]; [|discriminate].
    destruct (is_str type "initial_state"); [discriminate|].
    destruct (is_str type "simulation_update"); cycle 1.
    { destruct (is_str type "simulation_completed"); [discriminate|].
      destruct (is_str type "simulation_error"); discriminate. }
    rewrite Hc.
    destruct (get_prop data "state") eqn:Est;
      [|by destruct data; simpl in *].
    destruct (get_prop data "agents") eqn:Eag;
      [|by destruct data; simpl in *].
    rewrite (add_insights_adds v added _ Hs Hne). by intros [= <-].
  - unfold handleQueryResult. rewrite Hc.
    destruct (get_prop result "metrics") as [metrics|] eqn:Em;
      [|by destruct result; simpl in *].
    rewrite (add_insights_adds v added _ Hs Hne).
    destruct (truthy metrics); by intros [= <-].
Qed.

(** X4. How the bound of 20 is kept.  A batch of at most 20 new insights
    stays whole and pushes out the oldest of the retained ones; a batch of
    20 or more drops every retained insight and is itself cut after its
    twentieth element. *)
Theorem insights_eviction (op : operation) (v : jsval) (added : list jsval)
    (s s' : state) :
  carried op = Some v →
  spread v = Some added →
  0 < length added →
  state_after (perform op s) = Some s' →
  (length added ≤ 20 →
   insights s' = added ++ take (20 - length added) (insights s))
  ∧ (20 ≤ length added → insights s' = take 20 added).
Proof.
  intros Hc Hs Hlen Hs'.
  assert (added ≠ []) as Hne by (intros ->; simpl in Hlen; lia).
  rewrite (perform_adds op v added s s' Hc Hs Hne Hs').
  unfold keep_last_20. split; intros Hle.
  - by rewrite take_app_ge.
  - by rewrite take_app_le.
Qed.

(** X5. An operation whose insights are missing, empty or not iterable
    never changes the retained list: it is ignored, or (an object that
    claims a positive length) it takes the rendering down. *)
Theorem insights_untouched (op : operation) (v : jsval) (s s' : state) :
  carried op = Some v →
  spread v = None ∨ spread v = Some [] →
  state_after (perform op s) = Some s' →
  insights s' = insights s.
Proof.
  intros Hc Hs.
  assert (∀ t t', add_insights v t = Normal t' → insights t' = insights t) as Hadd.
  { intros t t'. unfold add_insights.
    destruct (truthy v && length_positive v) eqn:G.
    - destruct Hs as [-> | Hs]; [discriminate|].
      destruct v; simpl in *; try discriminate.
      + injection Hs. by destruct s0.
      + injection Hs as ->. discriminate.
    - by intros [= <-]. }
  destruct op as [data | result]; simpl in *.
  - unfold kind_of in Hc. unfold handleWebSocketMessage.
    destruct (get_prop data "type") as [type|]; [|discriminate].
    destruct (is_str type "initial_state"); [discriminate|].
    destruct (is_str type "simulation_update"); cycle 1.
    { destruct (is_str type "simulation_completed"); [discriminate|].
      destruct (is_str type "simulation_error"); discriminate. }
    rewrite Hc.
    destruct (get_prop data "state") eqn:Est;
      [|by destruct data; simpl in *].
    destruct (get_prop data "agents") eqn:Eag;
      [|by destruct data; simpl in *].
    destruct (add_insights v _) as [s2|msg s2|] eqn:E; simpl; [| |discriminate].
    + intros [= <-]. by rewrite (Hadd _ _ E).
    + by apply add_insights_no_throw in E.
  - unfold handleQueryResult. rewrite Hc.
    destruct (get_prop result "metrics") as [metrics|] eqn:Em;
      [|by destruct result; simpl in *].
    destruct (add_insights v _) as [s2|msg s2|] eqn:E; simpl; [| |discriminate].
    + destruct (truthy metrics); intros [= <-]; simpl; by rewrite (Hadd _ _ E).
    + by apply add_insights_no_throw in E.
Qed.

(** X6. A per-tick update that carries no state, or no agent list, is
    handled without complaint and takes the page down: the rendering that
    follows raises in the page's own header, which reads
    [currentState.simulation_time] and [agents.length], before any child is
    rendered; the page being gone, no later event of the socket is
    handled. *)
Theorem update_without_state_unmounts (data st ags : jsval) (s : state)
    (later : list ws_event) :
  kind_of data = Update →
  get_prop data "state" = Some st →
  get_prop data "agents" = Some ags →
  unreadable st = true ∨ unreadable ags = true →
  (∀ s', handleWebSocketMessage data s = Normal s' → header_renders s' = false)
  ∧ (∀ msg s', handleWebSocketMessage data s ≠ Throw msg s')
  ∧ on_ws_event (Message data) s = RenderCrash
  ∧ on_ws_events (Message data :: later) s = None.
Proof.
  intros Hk Hst Hag Hun.
  assert (∀ s', state_after (handleWebSocketMessage data s) = Some s' →
                header_renders s' = false) as Hheader.
  { intros s' Hs'.
    destruct (update_spec _ _ _ _ _ Hk Hst Hag Hs') as (Ec & Ea & _).
    unfold header_renders. rewrite Ec, Ea.
    destruct Hun as [Hun | Hun].
    - destruct st; try discriminate; by destruct (get_prop ags "length").
    - by destruct ags. }
  assert (on_ws_event (Message data) s = RenderCrash) as Hcrash.
  { unfold on_ws_event, rerender.
    destruct (state_after (handleWebSocketMessage data s)) as [s'|] eqn:E;
      [|reflexivity].
    unfold renders. by rewrite (Hheader s' eq_refl). }
  split; [intros s' E; apply Hheader; by rewrite E|].
  split.
  { intros msg s'. unfold kind_of in Hk. unfold handleWebSocketMessage.
    destruct (get_prop data "type") as [type|]; [|discriminate].
    destruct (is_str type "initial_state"); [discriminate|].
    destruct (is_str type "simulation_update"); cycle 1.
    { destruct (is_str type "simulation_completed"); [discriminate|].
      destruct (is_str type "simulation_error"); discriminate. }
    rewrite Hst, Hag.
    destruct (get_prop data "new_insights") as [ni|] eqn:Eni;
      [apply add_insights_no_throw | by destruct data]. }
  split; [exact Hcrash|].
  simpl. by rewrite Hcrash.
Qed.

End Handlers.

(** ** Creating, starting and stopping a run *)
Section LifecycleProperties.
Context {engine : JS.Engine}.
Import JS Lifecycle.

(** X7. Stopping always works from the page's point of view: whatever the
    stop request came to (rejected, refused by the server, accepted), the
    run is marked as not running and [close()] is called on the current
    socket, the others being left alone.  The connection indicator is not
    touched; it waits for the socket's own event. *)
Theorem stop_always_stops (o o' : NaturalLanguageQuery.fetch_outcome) (p : page) :
  stopSimulation o p = stopSimulation o' p
  ∧ AISimulation.isRunning (ui (stopSimulation o p).1) = false
  ∧ AISimulation.isConnected (ui (stopSimulation o p).1)
    = AISimulation.isConnected (ui p)
  ∧ ws_current (stopSimulation o p).1 = ws_current p
  ∧ (∀ i k, sockets p !! i = Some k →
       sockets (stopSimulation o p).1 !! i
       = Some (if bool_decide (ws_current p = Some i) then close k else k)).
Proof.
  split; [reflexivity|]. split; [reflexivity|]. split; [reflexivity|].
  split; [reflexivity|].
  intros i k Hk. simpl. unfold close_current.
  destruct (ws_current p) as [j|]; cycle 1.
  { rewrite bool_decide_eq_false_2 by discriminate. exact Hk. }
  destruct (decide (j = i)) as [->|Hne].
  - rewrite bool_decide_eq_true_2 by reflexivity.
    by rewrite list_lookup_alter_eq, Hk.
  - rewrite bool_decide_eq_false_2 by congruence.
    by rewrite list_lookup_alter_ne.
Qed.

(** X8. A start that fails (the request rejected or refused, or the socket
    not constructed) leaves the run marked as not running, creates no
    socket and keeps [ws.current]; while the button is disabled, for want
    of a run identifier, nothing is even requested. *)
Theorem failed_start (o : NaturalLanguageQuery.fetch_outcome)
    (constructed : bool) (p : page) :
  match o with
  | NaturalLanguageQuery.Responded true _ _ => constructed = false
  | _ => True
  end →
  AISimulation.isRunning (ui (startSimulation o constructed p).1)
  = AISimulation.isRunning (ui p)
    && negb (truthy (AISimulation.simulationId (ui p)))
  ∧ sockets (startSimulation o constructed p).1 = sockets p
  ∧ ws_current (startSimulation o constructed p).1 = ws_current p
  ∧ (button_disabled p = true →
     startSimulation o constructed p = (p, None)).
Proof.
  intros Hfail. unfold startSimulation, button_disabled.
  destruct (truthy (AISimulation.simulationId (ui p))); simpl.
  - rewrite andb_false_r.
    destruct o as [msg | [|] st j]; simpl in *; subst; repeat split; discriminate.
  - rewrite andb_true_r. repeat split.
Qed.

(** X9. Starting never closes the socket it replaces.  If the page still
    refers to a socket when a start succeeds, that socket is left exactly
    as it was, [ws.current] moves to the new one, and a later stop closes
    the new one only, as does the clean-up of the component: nothing the
    page does can close the earlier socket any more. *)
Theorem restart_leaves_socket (o : NaturalLanguageQuery.fetch_outcome)
    (statusText : string) (json : string + jsval) (p : page)
    (i : nat) (k : socket) :
  truthy (AISimulation.simulationId (ui p)) = true →
  ws_current p = Some i →
  sockets p !! i = Some k →
  sockets (startSimulation (NaturalLanguageQuery.Responded true statusText json)
             true p).1 !! i = Some k
  ∧ ws_current (startSimulation (NaturalLanguageQuery.Responded true statusText json)
                  true p).1 = Some (length (sockets p))
  ∧ sockets (stopSimulation o
               (startSimulation (NaturalLanguageQuery.Responded true statusText json)
                  true p).1).1 !! i = Some k
  ∧ close_called
      <$> sockets (stopSimulation o
                     (startSimulation
                        (NaturalLanguageQuery.Responded true statusText json)
                        true p).1).1 !! length (sockets p)
    = Some true
  ∧ sockets (cleanup
               (startSimulation (NaturalLanguageQuery.Responded true statusText json)
                  true p).1) !! i = Some k.
Proof.
  intros Hid Hcur Hk. unfold startSimulation. rewrite Hid. simpl.
  pose proof (lookup_lt_Some _ _ _ Hk) as Hlt.
  split; [by rewrite lookup_app_l|]. split; [reflexivity|].
  unfold cleanup, close_current. simpl. split; [|split].
  - rewrite list_lookup_alter_ne by lia. by rewrite lookup_app_l.
  - rewrite list_lookup_alter_eq.
    rewrite lookup_app_r by lia. by rewrite Nat.sub_diag.
  - rewrite list_lookup_alter_ne by lia. by rewrite lookup_app_l.
Qed.

(** X10. Creating a simulation changes the run identifier and nothing
    else: the insights, the agents, the metrics and the running flag of
    the run shown before stay on the page, and so do the sockets.  The
    identifier itself changes only when the response was OK and its body
    could be read; any failure keeps the previous one. *)
Theorem create_changes_identifier_only (innovations : jsval)
    (o : NaturalLanguageQuery.fetch_outcome) (p : page) :
  sockets (createSimulation innovations o p).1 = sockets p
  ∧ ws_current (createSimulation innovations o p).1 = ws_current p
  ∧ AISimulation.setSimulationId (AISimulation.simulationId (ui p))
      (ui (createSimulation innovations o p).1)
    = ui p
  ∧ (AISimulation.simulationId (ui (createSimulation innovations o p).1)
     = AISimulation.simulationId (ui p)
     ∨ ∃ statusText data,
         o = NaturalLanguageQuery.Responded true statusText (inr data)
         ∧ get_prop data "simulation_id"
           = Some (AISimulation.simulationId (ui (createSimulation innovations o p).1))).
Proof.
  unfold createSimulation.
  assert (AISimulation.setSimulationId (AISimulation.simulationId (ui p)) (ui p)
          = ui p) as Hsame by (by destruct p as [[]]).
  destruct (get_prop innovations "vrStations"); [|by auto].
  destruct (get_prop innovations "telehealthRooms"); [|by auto].
  destruct (get_prop innovations "aiTriageEnabled"); [|by auto].
  destruct (get_prop innovations "mobileHealthUnits"); [|by auto].
  destruct (get_prop innovations "roboticAssistants"); [|by auto].
  destruct o as [msg | [|] st [msg | data]]; try (by auto).
  destruct (get_prop data "simulation_id") as [id|] eqn:Eid; [|by auto].
  simpl. split; [reflexivity|]. split; [reflexivity|].
  split; [by destruct p as [[]]|].
  right. eauto.
Qed.

End LifecycleProperties.

(** ** The query panel *)
Section QueryPanelProperties.
Context {engine : JS.Engine}.
Import JS NaturalLanguageQuery.

(** Once a request is sent, what the component was showing as its error
    and as its spinner no longer matters. *)
Lemma processQuery_forgets {P : Type} (simulationId : jsval)
    (callback : option (jsval → P → completion P))
    (env : environment) (n : state) (p : P) (e : string) (b : bool) :
  processQuery simulationId callback env (setError e (setIsProcessing b n)) p
  = (if bool_decide (trim (query n) = "") || negb (truthy simulationId)
     then {| component := setError e (setIsProcessing b n);
             owner := Some p; sent := None; spoken := None |}
     else processQuery simulationId callback env n p).
Proof.
  unfold processQuery. simpl.
  destruct (bool_decide (trim (query n) = "") || negb (truthy simulationId));
    reflexivity.
Qed.

(** X11. The spinner never sticks and a stale error never survives.  A
    call that sends nothing leaves the component as it was; a call that
    sends a request always ends with the processing flag down, however the
    request, the body or the callback fails, and with an error that comes
    from this call alone. *)
Theorem processing_always_ends {P : Type} (simulationId : jsval)
    (callback : option (jsval → P → completion P))
    (env : environment) (n : state) (p : P) (e : string) (b : bool) :
  (sent (processQuery simulationId callback env n p) = None →
   processQuery simulationId callback env n p
   = {| component := n; owner := Some p; sent := None; spoken := None |})
  ∧ (is_Some (sent (processQuery simulationId callback env n p)) →
     isProcessing (component (processQuery simulationId callback env n p)) = false
     ∧ processQuery simulationId callback env (setError e (setIsProcessing b n)) p
       = processQuery simulationId callback env n p).
Proof.
  rewrite processQuery_forgets. unfold processQuery.
  destruct (bool_decide (trim (query n) = "") || negb (truthy simulationId)).
  { split; [reflexivity|]. simpl. by intros [? ?]. }
  destruct (fetched env) as [msg | [|] st [msg | data]]; simpl;
    try (split; [discriminate | by intros _]).
  destruct (get_prop data "response"); [|split; [discriminate | by intros _]].
  destruct (get_prop data "metrics"); [|split; [discriminate | by intros _]].
  destruct (get_prop data "insights"); [|split; [discriminate | by intros _]].
  destruct callback as [cb|]; [destruct (cb data p)|]; simpl;
    (split; [discriminate | by intros _]).
Qed.

(** The callback of the page never raises into [processQuery]. *)
Lemma handleQueryResult_no_throw (data resp : jsval) (a : AISimulation.state)
    msg a' :
  get_prop data "response" = Some resp →
  AISimulation.handleQueryResult data a ≠ Throw msg a'.
Proof.
  intros Hr. unfold AISimulation.handleQueryResult.
  destruct (get_prop data "insights") as [ins|] eqn:Ei;
    [|by destruct data; simpl in *].
  destruct (get_prop data "metrics") as [metrics|] eqn:Em;
    [|by destruct data; simpl in *].
  destruct (AISimulation.add_insights ins _) as [s2|m2 s2|] eqn:E.
  - destruct (truthy metrics); discriminate.
  - by apply add_insights_no_throw in E.
  - discriminate.
Qed.

(** X12. The question stays in the box unless the query succeeded.  On the
    page, the query text is cleared and one entry is added to the
    conversation exactly when the response was OK and its body was JSON
    other than [null]; in every other case both are left as they were, so
    that the question can be sent again. *)
Theorem query_kept_unless_succeeded (env : environment) (n : state)
    (a : AISimulation.state) :
  truthy (AISimulation.simulationId a) = true →
  bool_decide (trim (query n) = "") = false →
  if (match fetched env with
      | Responded true _ (inr data) => bool_decide (is_Some (get_prop data "response"))
      | _ => false
      end)
  then query (component (Page.processQuery env n a)) = ""
       ∧ length (conversationHistory (component (Page.processQuery env n a)))
         = S (length (conversationHistory n))
       ∧ error (component (Page.processQuery env n a)) = ""
  else query (component (Page.processQuery env n a)) = query n
       ∧ conversationHistory (component (Page.processQuery env n a))
         = conversationHistory n
       ∧ response (component (Page.processQuery env n a)) = response n.
Proof.
  intros Hid Hq. unfold Page.processQuery, processQuery. rewrite Hid, Hq. simpl.
  destruct (fetched env) as [msg | [|] st [msg | data]]; try (by repeat split).
  destruct (get_prop data "response") as [resp|] eqn:Er; cycle 1.
  { rewrite bool_decide_eq_false_2 by (by intros [? ?]). by repeat split. }
  rewrite bool_decide_eq_true_2 by eauto.
  destruct (get_prop data "metrics") as [metrics|] eqn:Em;
    [|by destruct data; simpl in *].
  destruct (get_prop data "insights") as [ins|] eqn:Ei;
    [|by destruct data; simpl in *].
  destruct (AISimulation.handleQueryResult data a) as [a'|msg a'|] eqn:E;
    try (by repeat split).
  by apply (handleQueryResult_no_throw _ _ _ _ _ Er) in E.
Qed.

(** X13. The answer is read aloud only when everything is in place: a
    spoken text is the response just shown, it is truthy, voice input was
    enabled, the browser synthesizes speech, and the call succeeded (no
    error is left, the query is cleared). *)
Theorem spoken_only_when {P : Type} (simulationId : jsval)
    (callback : option (jsval → P → completion P))
    (env : environment) (n : state) (p : P) (v : jsval) :
  spoken (processQuery simulationId callback env n p) = Some v →
  isVoiceEnabled n = true ∧ synth env = true ∧ truthy v = true
  ∧ response (component (processQuery simulationId callback env n p)) = v
  ∧ error (component (processQuery simulationId callback env n p)) = ""
  ∧ query (component (processQuery simulationId callback env n p)) = "".
Proof.
  unfold processQuery.
  destruct (bool_decide (trim (query n) = "") || negb (truthy simulationId));
    [discriminate|].
  destruct (fetched env) as [msg | [|] st [msg | data]]; try discriminate.
  destruct (get_prop data "response") as [resp|]; [|discriminate].
  destruct (get_prop data "metrics"); [|discriminate].
  destruct (get_prop data "insights"); [|discriminate].
  destruct callback as [cb|]; [destruct (cb data p)|]; simpl; try discriminate;
    destruct (isVoiceEnabled n), (truthy resp) eqn:T, (synth env); simpl;
    try discriminate; intros [= <-]; repeat split; assumption.
Qed.

(** X14. A key press sends a query exactly when it is Enter without Shift,
    the text is not blank and the run is known; and whenever the Send
    button is enabled on a mounted panel, pressing it does send. *)
Theorem keypress_sends (key : string) (shiftKey : bool) (env : environment)
    (n : state) (a : AISimulation.state) :
  (is_Some (sent (QueryPanel.handleKeyPress key shiftKey env n a))
   ↔ key = "Enter" ∧ shiftKey = false
     ∧ bool_decide (trim (query n) = "") = false
     ∧ truthy (AISimulation.simulationId a) = true)
  ∧ (Page.query_mounted a = true → QueryPanel.send_disabled n = false →
     sent (Page.processQuery env n a)
     = Some (query_request (AISimulation.simulationId a) (query n))).
Proof.
  split.
  - unfold QueryPanel.handleKeyPress.
    destruct (bool_decide (key = "Enter")) eqn:K; simpl; cycle 1.
    { apply bool_decide_eq_false in K. split; [by intros [? ?]|].
      by intros (? & _). }
    apply bool_decide_eq_true in K.
    destruct shiftKey; simpl.
    { split; [by intros [? ?]|]. by intros (_ & ? & _). }
    destruct (truthy (AISimulation.simulationId a)) eqn:Hid;
      destruct (bool_decide (trim (query n) = "")) eqn:Hq.
    + split; [|by intros (_ & _ & ? & _)].
      unfold Page.processQuery, processQuery. rewrite Hq. simpl. by intros [? ?].
    + split; [auto|]. intros _.
      unfold Page.processQuery. rewrite processQuery_sent by assumption. eauto.
    + split; [|by intros (_ & _ & ? & _)].
      unfold Page.processQuery, processQuery. rewrite Hq. simpl. by intros [? ?].
    + split; [|by intros (_ & _ & _ & ?)].
      unfold Page.processQuery, processQuery. rewrite Hq, Hid. simpl.
      by intros [? ?].
  - unfold Page.query_mounted, QueryPanel.send_disabled. intros Hid Hd.
    apply orb_false_iff in Hd as [Hd _]. apply orb_false_iff in Hd as [Hq _].
    by apply processQuery_sent.
Qed.

(** X15. The conversation is never cut, only its display is: a successful
    query puts its entry at the head of the history, the panel shows that
    entry first and the four before it, and the history keeps them all. *)
Theorem newest_entry_displayed (env : environment) (n : state)
    (a : AISimulation.state) (statusText : string)
    (data resp metrics ins : jsval) :
  truthy (AISimulation.simulationId a) = true →
  bool_decide (trim (query n) = "") = false →
  fetched env = Responded true statusText (inr data) →
  get_prop data "response" = Some resp →
  get_prop data "metrics" = Some metrics →
  get_prop data "insights" = Some ins →
  QueryPanel.displayed_history (component (Page.processQuery env n a))
  = {| id := now env; timestamp := localeTime env;
       entry_query := query n; entry_response := resp;
       entry_metrics := js_or metrics (JObj ∅);
       entry_insights := js_or ins (JArr []) |}
    :: take 4 (conversationHistory n)
  ∧ drop 1 (conversationHistory (component (Page.processQuery env n a)))
    = conversationHistory n.
Proof.
  intros Hid Hq Hf Hr Hm Hi.
  destruct (processQuery_succeeded env n a statusText data resp metrics ins
              Hid Hq Hf Hr Hm Hi) as [-> _].
  split; reflexivity.
Qed.

(** X16. Dictation.  Whatever the recognition object reports ends the
    listening; a result replaces the text of the box, and sending then
    asks exactly what was heard; an error is always shown, its message
    never being empty; and starting is a no-op when the browser has no
    recognition or when the panel listens already. *)
Theorem dictation (recognition : bool) (e : QueryPanel.recognition_event)
    (env : environment) (n : state) (a : AISimulation.state)
    (transcript code : string) :
  isListening (QueryPanel.on_recognition e (QueryPanel.startListening recognition n))
  = false
  ∧ (truthy (AISimulation.simulationId a) = true →
     bool_decide (trim transcript = "") = false →
     sent (Page.processQuery env
             (QueryPanel.on_recognition (QueryPanel.OnResult transcript)
                (QueryPanel.startListening recognition n)) a)
     = Some (query_request (AISimulation.simulationId a) transcript))
  ∧ error_displayed (QueryPanel.on_recognition (QueryPanel.OnError code) n) = true
  ∧ (recognition = false ∨ isListening n = true →
     QueryPanel.startListening recognition n = n)
  ∧ isListening (QueryPanel.stopListening true n) = false.
Proof.
  split; [by destruct e|]. split.
  - intros Hid Hq. unfold Page.processQuery.
    by rewrite processQuery_sent.
  - split; [reflexivity|]. split.
    + unfold QueryPanel.startListening.
      intros [-> | ->]; [reflexivity|]. by rewrite andb_false_r.
    + unfold QueryPanel.stopListening. simpl. by destruct (isListening n) eqn:E.
Qed.

End QueryPanelProperties.

(** ** The trend arrows of the metric cards *)
Section TrendProperties.
Context {engine : JS.Engine}.
Import JS MetricsDisplay.

Lemma js_or_truthy (v d : jsval) : truthy d = true → truthy (js_or v d) = true.
Proof. intros Hd. unfold js_or. by destruct (truthy v) eqn:E. Qed.

Lemma getTrend_some (current baseline : jsval) :
  truthy baseline = true → truthy current = true →
  is_Some (getTrend current baseline).
Proof. intros Hb Hc. unfold getTrend. rewrite Hb, Hc. simpl. eauto. Qed.

(** X17. Which cards carry a trend.  Patients Waiting, Provider
    Utilization and Mental Health Access never do.  Satisfaction and Cost
    per Visit always do, even for a snapshot without these fields, the
    trend then being that of the default against the baseline.  Avg Wait
    Time does exactly when the snapshot has a truthy average wait. *)
Theorem trends_shown (fields : gmap string jsval) :
  ∃ cards,
    metricCards (JObj fields) = Some cards
    ∧ card_trend <$> cards !! 0 = Some None
    ∧ card_trend <$> cards !! 3 = Some None
    ∧ card_trend <$> cards !! 5 = Some None
    ∧ (∃ t, card_trend <$> cards !! 2 = Some (Some t))
    ∧ (∃ t, card_trend <$> cards !! 4 = Some (Some t))
    ∧ (card_trend <$> cards !! 1 = Some None
       ↔ truthy (default JUndefined (fields !! "average_wait_time")) = false).
Proof.
  eexists. split; [reflexivity|].
  do 3 (split; [reflexivity|]).
  cbn [lookup list_lookup fmap option_fmap option_map].
  split; [|split].
  - destruct (getTrend_some
                (js_or (default JUndefined (fields !! "average_satisfaction")) (JNum 50))
                (JNum 72) eq_refl (js_or_truthy _ (JNum 50) eq_refl)) as [t Ht].
    exists t. unfold card_trend. cbn [baseline current].
    change (truthy (JNum 72)) with true. cbv iota. by rewrite Ht.
  - destruct (getTrend_some
                (js_or (default JUndefined (fields !! "cost_per_visit")) (JNum 150))
                (JNum 185) eq_refl (js_or_truthy _ (JNum 150) eq_refl)) as [t Ht].
    exists t. unfold card_trend. cbn [baseline current].
    change (truthy (JNum 185)) with true. cbv iota. by rewrite Ht.
  - unfold card_trend. cbn [baseline current].
    change (truthy (JNum 28)) with true. cbv iota.
    unfold getTrend, js_or.
    change (truthy (JNum 28)) with true.
    destruct (truthy (default JUndefined (fields !! "average_wait_time"))) eqn:T.
    + rewrite T. simpl. split; discriminate.
    + change (truthy (JNum 0)) with false. simpl. split; reflexivity.
Qed.

(** X18. The polarity of the Satisfaction trend.  The card reuses the rule
    made for wait time and cost (down is good): a satisfaction below the
    baseline of 72 is shown as a downward trend flagged positive, one at or
    above it as an upward trend flagged not positive. *)
Theorem satisfaction_polarity (fields : gmap string jsval) (x : float) :
  fields !! "average_satisfaction" = Some (JNum x) →
  truthy (JNum x) = true →
  ∃ cards c,
    metricCards (JObj fields) = Some cards
    ∧ cards !! 2 = Some c
    ∧ title c = "Satisfaction"
    ∧ card_trend c
      = Some {| trend_value := Math_abs (Math_round ((x - 72) / 72 * 100)%float);
                direction := if PrimFloat.ltb x 72 then "down" else "up";
                positive := PrimFloat.ltb x 72 |}.
Proof.
  intros Hx Tx. eexists. eexists.
  split; [reflexivity|]. split; [reflexivity|]. split; [reflexivity|].
  unfold card_trend. cbn [baseline current].
  change (truthy (JNum 72)) with true. cbv iota.
  rewrite Hx. cbn [default from_option id]. unfold js_or. rewrite Tx.
  unfold getTrend. rewrite Tx.
  change (truthy (JNum 72)) with true. reflexivity.
Qed.

End TrendProperties.

(** ** The lines of an insight *)
Section InsightRowProperties.
Context {engine : JS.Engine}.
Import JS InsightRow.

(** X19. An insight that carries no confidence, as the insights of the API
    document's update message, is shown with the line "Confidence: NaN%". *)
Theorem confidence_missing (insight : jsval) :
  get_prop insight "confidence" = Some JUndefined →
  confidence_line insight = Some "Confidence: NaN%".
Proof.
  intros Hc. unfold confidence_line. rewrite Hc. reflexivity.
Qed.

(** X20. The line telling how many patients an insight affects is shown
    exactly when that number is truthy; an insight without an impact shows
    nothing, but one affecting 0 patients leaves a stray "0" on the page,
    the falsy number being rendered in place of the line. *)
Theorem affects_line_shown (insight impact : jsval) :
  get_prop insight "impact" = Some impact →
  (impact = JUndefined ∨ impact = JNull → affects_line insight = Some Hidden)
  ∧ (∀ pa, get_prop impact "patients_affected" = Some pa →
       (affects_line insight = Some Shown ↔ truthy pa = true)
       ∧ (pa = JNum 0 → affects_line insight = Some (Stray "0"))).
Proof.
  intros Hi. unfold affects_line, patients_affected. rewrite Hi. simpl.
  split; [by intros [-> | ->]|].
  intros pa Hpa.
  assert (match impact with
          | JUndefined | JNull => Some JUndefined
          | _ => get_prop impact "patients_affected"
          end = Some pa) as ->.
  { by destruct impact. }
  simpl. unfold jsx_and. split.
  - destruct (truthy pa); [by split|].
    split; [|discriminate]. by destruct pa.
  - by intros ->.
Qed.

End InsightRowProperties.

(** ** Selecting an agent by a click *)
Section ClickProperties.
Context {engine : JS.Engine}.
Variable exponentiate : float → float → float.
Import JS SimulationVisualizer.

(** When the click hits the agent at index [i], the search raises before
    it or returns an agent at or before [i]. *)
Lemma find_clicked_before (x y : float) (agents : list jsval) (i : nat)
    (a : jsval) :
  agents !! i = Some a →
  clicked exponentiate x y a = Some true →
  find_clicked exponentiate x y agents = None
  ∨ ∃ k c, k ≤ i ∧ agents !! k = Some c
           ∧ find_clicked exponentiate x y agents = Some (Some c).
Proof.
  revert i. induction agents as [|b rest IH]; intros i Hi Ha; [discriminate|].
  simpl. destruct i as [|i]; simpl in Hi.
  - injection Hi as ->. rewrite Ha. right. exists 0, a. auto.
  - destruct (clicked exponentiate x y b) as [[|]|]; [| |by left].
    + right. exists 0, b. split; [lia|]. auto.
    + destruct (IH i Hi Ha) as [-> | (k & c & Hk & Hc & ->)]; [by left|].
      right. exists (S k), c. split; [lia|]. auto.
Qed.

(** X21. Agents that report the same location cannot be told apart by a
    click: the hit test looks at the location alone, so whenever a click
    would hit an agent, the one selected is the first agent of the list
    that the click hits, which comes no later than any agent at the same
    location. *)
Theorem click_selects_first (x y : float) (s : AISimulation.state)
    (agents : list jsval) (i j : nat) (a b l : jsval) :
  AISimulation.agents s = JArr agents →
  agents !! i = Some a →
  agents !! j = Some b →
  i < j →
  get_prop a "location" = Some l →
  get_prop b "location" = Some l →
  clicked exponentiate x y b = Some true →
  handleCanvasClick exponentiate x y s = None
  ∨ ∃ k c, k ≤ i ∧ agents !! k = Some c
           ∧ handleCanvasClick exponentiate x y s
             = Some (if truthy c then setSelectedAgent c s else s).
Proof.
  intros Hs Ha Hb Hij Hla Hlb Hhit.
  assert (clicked exponentiate x y a = Some true) as Hhita.
  { unfold clicked in *. rewrite Hla. by rewrite Hlb in Hhit. }
  unfold handleCanvasClick. rewrite Hs.
  destruct (find_clicked_before x y agents i a Ha Hhita)
    as [-> | (k & c & Hk & Hc & ->)]; [by left|].
  right. exists k, c. auto.
Qed.

(** X22. An agent that is neither a patient nor a provider is never drawn,
    and can be selected all the same: a click on the position its location
    is tested against selects it. *)
Theorem undrawn_agent_selectable (s : AISimulation.state)
    (agent type l : jsval) (px py : float) :
  exponentiate 0 2 = 0%float →
  AISimulation.agents s = JArr [agent] →
  truthy agent = true →
  get_prop agent "type" = Some type →
  is_str type "patient" = false →
  is_str type "provider" = false →
  get_prop agent "location" = Some l →
  click_position (ToString l) = Some (px, py) →
  drawn_shape agent = Some NotDrawn
  ∧ handleCanvasClick exponentiate px py s = Some (setSelectedAgent agent s).
Proof.
  intros Hexp Hs Ht Htype Hpat Hprov Hl Hpos. split.
  - unfold drawn_shape. rewrite Htype. simpl.
    destruct agent; simpl in *; try discriminate; by rewrite Hpat, Hprov.
  - unfold handleCanvasClick. rewrite Hs. simpl.
    unfold clicked. rewrite Hl. simpl. rewrite Hpos.
    assert (within_radius exponentiate px py (Some (px, py)) = true) as ->.
    { unfold within_radius, click_position in *.
      destruct (bool_decide (ToString l = "entrance")).
      { injection Hpos as <- <-.
        change (80 - 80)%float with 0%float.
        change (200 - 200)%float with 0%float. by rewrite Hexp. }
      destruct (bool_decide (ToString l = "waiting_room")).
      { injection Hpos as <- <-.
        change (225 - 225)%float with 0%float.
        change (200 - 200)%float with 0%float. by rewrite Hexp. }
      destruct (bool_decide (ToString l ∈ inherited_names)); [discriminate|].
      injection Hpos as <- <-.
      change (50 - 50)%float with 0%float. by rewrite Hexp. }
    by rewrite Ht.
Qed.

End ClickProperties.

(** ** The further properties at concrete inputs *)
Section FurtherExamples.
Import JS.

(** X1: a query result carrying one metric overrides it and keeps the
    other. *)
Lemma query_metrics_merged_witness :
  ∃ s',
    state_after
      (AISimulation.handleQueryResult (engine := plain_engine)
         (JObj (<["metrics" := JObj (<["patients_waiting" := JNum 3]> ∅)]> ∅))
         busy_page)
    = Some s'
    ∧ get_prop (AISimulation.currentState s') "patients_waiting" = Some (JNum 3)
    ∧ get_prop (AISimulation.currentState s') "average_wait_time" = Some (JNum 18.5).
Proof.
  eexists. split; [reflexivity|]. split.
  - exact (query_metrics_merged (engine := plain_engine)
             (JObj (<["metrics" := JObj (<["patients_waiting" := JNum 3]> ∅)]> ∅))
             JUndefined (<["patients_waiting" := JNum 3]> ∅) busy_page _
             "patients_waiting" eq_refl eq_refl eq_refl).
  - exact (query_metrics_merged (engine := plain_engine)
             (JObj (<["metrics" := JObj (<["patients_waiting" := JNum 3]> ∅)]> ∅))
             JUndefined (<["patients_waiting" := JNum 3]> ∅) busy_page _
             "average_wait_time" eq_refl eq_refl eq_refl).
Defined.

(** X2: the metric a query merged in is gone after the next update. *)
Lemma update_replaces_state_witness :
  ∃ s1 s2,
    state_after
      (AISimulation.handleQueryResult (engine := plain_engine)
         (JObj (<["metrics" := JObj (<["patients_waiting" := JNum 3]> ∅)]> ∅))
         busy_page)
    = Some s1
    ∧ state_after
        (AISimulation.handleWebSocketMessage (engine := plain_engine)
           (Core.update_message "sim_abc123"
              {| Core.update_state := JObj (<["average_wait_time" := JNum 20]> ∅);
                 Core.update_agents := []; Core.update_insights := [] |})
           s1)
      = Some s2
    ∧ AISimulation.currentState s2 = JObj (<["average_wait_time" := JNum 20]> ∅)
    ∧ AISimulation.agents s2 = JArr []
    ∧ AISimulation.queryResponse s2
      = JObj (<["metrics" := JObj (<["patients_waiting" := JNum 3]> ∅)]> ∅).
Proof.
  eexists. eexists. split; [reflexivity|]. split; [reflexivity|].
  exact (update_replaces_state (engine := plain_engine)
           (JObj (<["metrics" := JObj (<["patients_waiting" := JNum 3]> ∅)]> ∅))
           (Core.update_message "sim_abc123"
              {| Core.update_state := JObj (<["average_wait_time" := JNum 20]> ∅);
                 Core.update_agents := []; Core.update_insights := [] |})
           _ _ busy_page _ _ eq_refl eq_refl eq_refl eq_refl eq_refl).
Defined.

(** X3: an update and a broken frame leave the run identifier. *)
Lemma socket_events_frame_witness :
  ∃ s',
    AISimulation.on_ws_events (engine := plain_engine)
      [AISimulation.Message
         (Core.update_message "sim_abc123"
            {| Core.update_state := JObj ∅; Core.update_agents := [];
               Core.update_insights := [] |});
       AISimulation.Unparsable "Unexpected token"]
      busy_page
    = Some s'
    ∧ AISimulation.simulationId s' = JStr "sim_abc123".
Proof.
  eexists. split; [reflexivity|].
  exact (proj1 (socket_events_frame (engine := plain_engine)
                  [AISimulation.Message
                     (Core.update_message "sim_abc123"
                        {| Core.update_state := JObj ∅; Core.update_agents := [];
                           Core.update_insights := [] |});
                   AISimulation.Unparsable "Unexpected token"]
                  busy_page _ eq_refl)).
Defined.

(** X4: two new insights in front of the one retained. *)
Lemma insights_eviction_witness :
  ∃ s',
    state_after
      (perform (engine := plain_engine)
         (QueryResult (JObj (<["insights" := JArr [JStr "a"; JStr "b"]]> ∅)))
         busy_page)
    = Some s'
    ∧ AISimulation.insights s' = [JStr "a"; JStr "b"; JStr "old"].
Proof.
  eexists. split; [reflexivity|].
  refine (proj1 (insights_eviction (engine := plain_engine)
                   (QueryResult (JObj (<["insights" := JArr [JStr "a"; JStr "b"]]> ∅)))
                   (JArr [JStr "a"; JStr "b"]) [JStr "a"; JStr "b"] busy_page _
                   eq_refl eq_refl _ eq_refl) _); simpl; lia.
Defined.

(** X5: the documented query response carries no insights. *)
Lemma insights_untouched_witness :
  ∃ s',
    state_after
      (perform (engine := plain_engine) (QueryResult documented_query_response)
         busy_page)
    = Some s'
    ∧ AISimulation.insights s' = [JStr "old"].
Proof.
  eexists. split; [reflexivity|].
  exact (insights_untouched (engine := plain_engine)
           (QueryResult documented_query_response) JUndefined busy_page _
           eq_refl (or_introl eq_refl) eq_refl).
Defined.

(** X6: an update that carries nothing but its type and a late insight;
    the socket's closing is not handled any more. *)
Lemma update_without_state_unmounts_witness :
  AISimulation.handleWebSocketMessage (engine := plain_engine)
    (JObj (<["type" := JStr "simulation_update"]>
           (<["new_insights" := JArr (labelled "late_" 1)]> ∅)))
    busy_page
  = Normal
      (AISimulation.setInsights (labelled "late_" 1 ++ [JStr "old"])
         (AISimulation.setAgents JUndefined
            (AISimulation.setCurrentState JUndefined busy_page)))
  ∧ AISimulation.renders (engine := plain_engine) busy_page = true
  ∧ AISimulation.on_ws_events (engine := plain_engine)
      [AISimulation.Message
         (JObj (<["type" := JStr "simulation_update"]>
                (<["new_insights" := JArr (labelled "late_" 1)]> ∅)));
       AISimulation.Close]
      busy_page
    = None.
Proof.
  split; [reflexivity|]. split; [vm_compute; reflexivity|].
  apply (update_without_state_unmounts (engine := plain_engine)
           (JObj (<["type" := JStr "simulation_update"]>
                  (<["new_insights" := JArr (labelled "late_" 1)]> ∅)))
           JUndefined JUndefined busy_page [AISimulation.Close]);
    [reflexivity | reflexivity | reflexivity | left; reflexivity].
Defined.

(** X8: the server refuses the start. *)
Lemma failed_start_witness :
  AISimulation.isRunning
    (Lifecycle.ui
       (Lifecycle.startSimulation (engine := plain_engine)
          (NaturalLanguageQuery.Responded false "Not Found" (inl "")) true
          connected_page).1)
  = false
  ∧ Lifecycle.sockets
      (Lifecycle.startSimulation (engine := plain_engine)
         (NaturalLanguageQuery.Responded false "Not Found" (inl "")) true
         connected_page).1
    = Lifecycle.sockets connected_page.
Proof.
  destruct (failed_start (engine := plain_engine)
              (NaturalLanguageQuery.Responded false "Not Found" (inl "")) true
              connected_page I) as (H1 & H2 & _).
  split; [exact H1 | exact H2].
Defined.

(** X9: a second start on a page that still holds an open socket. *)
Lemma restart_leaves_socket_witness :
  Lifecycle.sockets
    (Lifecycle.stopSimulation (engine := plain_engine)
       (NaturalLanguageQuery.Rejected "Failed to fetch")
       (Lifecycle.startSimulation (engine := plain_engine)
          (NaturalLanguageQuery.Responded true "OK" (inl "")) true
          connected_page).1).1
  = [ {| Lifecycle.socket_url := "ws://localhost:8000/ws/sim_abc123";
         Lifecycle.close_called := false |};
      {| Lifecycle.socket_url := "ws://localhost:8000/ws/sim_abc123";
         Lifecycle.close_called := true |} ]
  ∧ Lifecycle.sockets
      (Lifecycle.stopSimulation (engine := plain_engine)
         (NaturalLanguageQuery.Rejected "Failed to fetch")
         (Lifecycle.startSimulation (engine := plain_engine)
            (NaturalLanguageQuery.Responded true "OK" (inl "")) true
            connected_page).1).1 !! 0
    = Some {| Lifecycle.socket_url := "ws://localhost:8000/ws/sim_abc123";
              Lifecycle.close_called := false |}.
Proof.
  split; [reflexivity|].
  exact (proj1 (proj2 (proj2
           (restart_leaves_socket (engine := plain_engine)
              (NaturalLanguageQuery.Rejected "Failed to fetch") "OK" (inl "")
              connected_page 0 _ eq_refl eq_refl eq_refl)))).
Defined.

(** X12: the request is rejected and the question stays; the third
    question of a conversation is answered, the box is cleared and the
    conversation has three entries. *)
Lemma query_kept_unless_succeeded_witness :
  NaturalLanguageQuery.query
    (NaturalLanguageQuery.component
       (Page.processQuery (engine := plain_engine)
          (answered (NaturalLanguageQuery.Rejected "Failed to fetch"))
          (asking_after 2 "How effective is VR therapy?") page))
  = "How effective is VR therapy?"
  ∧ length
      (NaturalLanguageQuery.conversationHistory
         (NaturalLanguageQuery.component
            (Page.processQuery (engine := plain_engine)
               (answered (NaturalLanguageQuery.Rejected "Failed to fetch"))
               (asking_after 2 "How effective is VR therapy?") page)))
    = 2
  ∧ NaturalLanguageQuery.query
      (NaturalLanguageQuery.component
         (Page.processQuery (engine := plain_engine)
            (answered (NaturalLanguageQuery.Responded true "OK"
                         (inr documented_query_response)))
            (asking_after 2 "How effective is VR therapy?") page))
    = ""
  ∧ length
      (NaturalLanguageQuery.conversationHistory
         (NaturalLanguageQuery.component
            (Page.processQuery (engine := plain_engine)
               (answered (NaturalLanguageQuery.Responded true "OK"
                            (inr documented_query_response)))
               (asking_after 2 "How effective is VR therapy?") page)))
    = 3.
Proof.
  destruct (query_kept_unless_succeeded (engine := plain_engine)
              (answered (NaturalLanguageQuery.Rejected "Failed to fetch"))
              (asking_after 2 "How effective is VR therapy?") page eq_refl eq_refl)
    as (Hkept & Hsame & _).
  destruct (query_kept_unless_succeeded (engine := plain_engine)
              (answered (NaturalLanguageQuery.Responded true "OK"
                           (inr documented_query_response)))
              (asking_after 2 "How effective is VR therapy?") page eq_refl eq_refl)
    as (Hcleared & Hadded & _).
  split; [exact Hkept|]. split; [by rewrite Hsame|].
  split; [exact Hcleared | exact Hadded].
Defined.

(** X13: the documented response, read aloud. *)
Lemma spoken_only_when_witness :
  NaturalLanguageQuery.spoken
    (Page.processQuery (engine := plain_engine)
       (aloud (NaturalLanguageQuery.Responded true "OK" (inr documented_query_response)))
       (voiced "What if we had 20% less nurses during the day shift?") page)
  = Some (JStr "Based on your question... wait times would increase by 40% to approximately 39 minutes...")
  ∧ NaturalLanguageQuery.error
      (NaturalLanguageQuery.component
         (Page.processQuery (engine := plain_engine)
            (aloud (NaturalLanguageQuery.Responded true "OK" (inr documented_query_response)))
            (voiced "What if we had 20% less nurses during the day shift?") page))
    = "".
Proof.
  split; [reflexivity|].
  exact (proj1 (proj2 (proj2 (proj2 (proj2
           (spoken_only_when (engine := plain_engine)
              (AISimulation.simulationId page)
              (Some (AISimulation.handleQueryResult (engine := plain_engine)))
              (aloud (NaturalLanguageQuery.Responded true "OK"
                        (inr documented_query_response)))
              (voiced "What if we had 20% less nurses during the day shift?")
              page _ eq_refl)))))).
Defined.

(** X15: a seventh question.  The panel shows it with the four before it;
    the history keeps the six earlier ones behind it. *)
Lemma newest_entry_displayed_witness :
  NaturalLanguageQuery.entry_query
    <$> QueryPanel.displayed_history
          (NaturalLanguageQuery.component
             (Page.processQuery (engine := plain_engine)
                (answered (NaturalLanguageQuery.Responded true "OK"
                             (inr documented_query_response)))
                (asking_after 6 "What insights do you have?") page))
  = ["What insights do you have?"; "Question 1"; "Question 2"; "Question 3";
     "Question 4"]
  ∧ NaturalLanguageQuery.entry_query
      <$> drop 1
            (NaturalLanguageQuery.conversationHistory
               (NaturalLanguageQuery.component
                  (Page.processQuery (engine := plain_engine)
                     (answered (NaturalLanguageQuery.Responded true "OK"
                                  (inr documented_query_response)))
                     (asking_after 6 "What insights do you have?") page)))
    = ["Question 1"; "Question 2"; "Question 3"; "Question 4"; "Question 5";
       "Question 6"].
Proof.
  destruct (newest_entry_displayed (engine := plain_engine)
              (answered (NaturalLanguageQuery.Responded true "OK"
                           (inr documented_query_response)))
              (asking_after 6 "What insights do you have?") page
              "OK" documented_query_response
              (JStr "Based on your question... wait times would increase by 40% to approximately 39 minutes...")
              JUndefined JUndefined
              eq_refl eq_refl eq_refl eq_refl eq_refl eq_refl)
    as [Hshown Hkept].
  split; [by rewrite Hshown | by rewrite Hkept].
Defined.

(** X18: a satisfaction of 60 against the baseline of 72. *)
Lemma satisfaction_polarity_witness :
  ∃ cards c,
    MetricsDisplay.metricCards (engine := plain_engine)
      (JObj (<["average_satisfaction" := JNum 60]> ∅))
    = Some cards
    ∧ cards !! 2 = Some c
    ∧ MetricsDisplay.card_trend (engine := plain_engine) c
      = Some {| MetricsDisplay.trend_value := 17;
                MetricsDisplay.direction := "down";
                MetricsDisplay.positive := true |}.
Proof.
  assert ((<["average_satisfaction" := JNum 60]> ∅ : gmap string jsval)
            !! "average_satisfaction" = Some (JNum 60)) as Hx by reflexivity.
  destruct (satisfaction_polarity (engine := plain_engine)
              (<["average_satisfaction" := JNum 60]> ∅) 60 Hx eq_refl)
    as (cards & c & H1 & H2 & _ & H3).
  exists cards, c. split; [exact H1|]. split; [exact H2 | exact H3].
Defined.

(** X19: the insight of the API document's update message. *)
Lemma confidence_missing_witness :
  InsightRow.confidence_line (engine := plain_engine)
    (JObj (<["type" := JStr "bottleneck_detected"]>
           (<["title" := JStr "Triage Bottleneck Detected"]>
            (<["description" := JStr "Triage station experiencing 50% above normal volume"]> ∅))))
  = Some "Confidence: NaN%".
Proof.
  exact (confidence_missing (engine := plain_engine)
           (JObj (<["type" := JStr "bottleneck_detected"]>
                  (<["title" := JStr "Triage Bottleneck Detected"]>
                   (<["description" := JStr "Triage station experiencing 50% above normal volume"]> ∅))))
           eq_refl).
Defined.

(** X20: an insight that affects no patient. *)
Lemma affects_line_shown_witness :
  InsightRow.affects_line (engine := plain_engine)
    (JObj (<["impact" := JObj (<["patients_affected" := JNum 0]> ∅)]> ∅))
  = Some (InsightRow.Stray "0").
Proof.
  exact (proj2 (proj2 (affects_line_shown (engine := plain_engine)
                         (JObj (<["impact" := JObj (<["patients_affected" := JNum 0]> ∅)]> ∅))
                         (JObj (<["patients_affected" := JNum 0]> ∅)) eq_refl)
                      (JNum 0) eq_refl) eq_refl).
Defined.

(** X21: two patients in the waiting room, a click in its middle. *)
Lemma click_selects_first_witness :
  SimulationVisualizer.handleCanvasClick (engine := plain_engine) square_power
    225 200 (AISimulation.setAgents (JArr two_waiting) page)
  = None
  ∨ ∃ k c,
      k ≤ 0
      ∧ two_waiting !! k = Some c
      ∧ SimulationVisualizer.handleCanvasClick (engine := plain_engine) square_power
          225 200 (AISimulation.setAgents (JArr two_waiting) page)
        = Some (if truthy c
                then SimulationVisualizer.setSelectedAgent c
                       (AISimulation.setAgents (JArr two_waiting) page)
                else AISimulation.setAgents (JArr two_waiting) page).
Proof.
  apply (click_selects_first (engine := plain_engine) square_power 225 200
           (AISimulation.setAgents (JArr two_waiting) page) two_waiting
           0 1
           (JObj (<["id" := JStr "patient_1"]> (<["location" := JStr "waiting_room"]> ∅)))
           (JObj (<["id" := JStr "patient_2"]> (<["location" := JStr "waiting_room"]> ∅)))
           (JStr "waiting_room"));
    [reflexivity | reflexivity | reflexivity | lia
     | reflexivity | reflexivity | reflexivity].
Defined.

(** X22: a robot in the lab, which is tested against the corner. *)
Lemma undrawn_agent_selectable_witness :
  SimulationVisualizer.drawn_shape (engine := plain_engine) robot
  = Some SimulationVisualizer.NotDrawn
  ∧ AISimulation.selectedAgent
      <$> SimulationVisualizer.handleCanvasClick (engine := plain_engine) square_power
            50 50 (AISimulation.setAgents (JArr [robot]) page)
    = Some robot.
Proof.
  destruct (undrawn_agent_selectable (engine := plain_engine) square_power
              (AISimulation.setAgents (JArr [robot]) page)
              robot (JStr "robot") (JStr "lab") 50 50)
    as [H1 H2]; try reflexivity.
  split; [exact H1|]. rewrite H2. reflexivity.
Defined.

End FurtherExamples.
